(** * CrimsonBites front end: macro chart and plate saving

    A shallow embedding of
    - [src/frontend/src/components/nutritionHistory/MacroChart.jsx]
      ([getISOWeekDates], [CustomTooltip], [CustomXAxisTick],
      [MacroChart] with its [convertedData] and [xAxisInterval]), and
    - [src/frontend/src/App.jsx] ([getLocalDateString], [PrivateRoute],
      the tracker's [addToTracker], [removeFromTracker] and
      [clearTracker], [handleSavePlate] and the route table).

    JavaScript numbers are IEEE 754 binary64 values and are modelled by
    Rocq's primitive floats.  A valid [Date] object is modelled by the
    local calendar day it denotes, counted in days from 1970-01-01, with
    the day arithmetic of ECMA-262 (section "Time Values and Time
    Range"); the time of day, which [setDate] keeps, is left out.
    Objects decoded from JSON are finite maps from property names to
    primitive values.  Of date-fns the model has [format] with the two
    patterns the file uses and [parseISO] on calendar dates written
    YYYY-MM-DD; [parseISO] on any other string is a parameter.  The
    routes are modelled by what each route's element renders, with the
    matching of a location to a route as React Router does it for the
    paths the file spells out. *)

From Stdlib Require Import ZArith Lia List Bool String Ascii.
From Stdlib Require Import Floats.
From stdpp Require Import base option list gmap strings.
Import ListNotations.

Local Open Scope Z_scope.

(** ** ECMAScript day arithmetic *)

Module JSDate.

(** A [Date] as the local calendar day it falls on. *)
Definition Date := Z.

(** ECMA-262 [DaysInYear]. *)
Definition DaysInYear (y : Z) : Z :=
  if negb (y mod 4 =? 0) then 365
  else if negb (y mod 100 =? 0) then 366
  else if negb (y mod 400 =? 0) then 365
  else 366.

Definition InLeapYear (y : Z) : Z := DaysInYear y - 365.

(** ECMA-262 [DayFromYear]: the day number of January 1 of year [y]. *)
Definition DayFromYear (y : Z) : Z :=
  365 * (y - 1970) + (y - 1969) / 4 - (y - 1901) / 100 + (y - 1601) / 400.

(** ECMA-262 [YearFromTime]: the largest [y] with [DayFromYear y <= d].
    The mean Gregorian year has 146097/400 days, which gives an
    estimate that is off by at most one. *)
Definition YearFromDay (d : Z) : Z :=
  let y := 1970 + (400 * d) / 146097 in
  if d <? DayFromYear y then y - 1
  else if DayFromYear (y + 1) <=? d then y + 1
  else y.

Definition DayWithinYear (d : Z) : Z := d - DayFromYear (YearFromDay d).

(** Days of the year before month [m] (0 = January), [leap] being 0 or 1. *)
Definition monthStart (m leap : Z) : Z :=
  match m with
  | 0 => 0
  | 1 => 31
  | 2 => 59 + leap
  | 3 => 90 + leap
  | 4 => 120 + leap
  | 5 => 151 + leap
  | 6 => 181 + leap
  | 7 => 212 + leap
  | 8 => 243 + leap
  | 9 => 273 + leap
  | 10 => 304 + leap
  | _ => 334 + leap
  end.

(** ECMA-262 [MonthFromTime]. *)
Definition MonthFromDay (d : Z) : Z :=
  let w := DayWithinYear d in
  let leap := InLeapYear (YearFromDay d) in
  if w <? 31 then 0
  else if w <? 59 + leap then 1
  else if w <? 90 + leap then 2
  else if w <? 120 + leap then 3
  else if w <? 151 + leap then 4
  else if w <? 181 + leap then 5
  else if w <? 212 + leap then 6
  else if w <? 243 + leap then 7
  else if w <? 273 + leap then 8
  else if w <? 304 + leap then 9
  else if w <? 334 + leap then 10
  else 11.

(** ECMA-262 [DateFromTime]: the day of the month, from 1. *)
Definition DateFromDay (d : Z) : Z :=
  DayWithinYear d - monthStart (MonthFromDay d) (InLeapYear (YearFromDay d)) + 1.

(** ECMA-262 [WeekDay]: 0 = Sunday .. 6 = Saturday; day 0 was a Thursday. *)
Definition WeekDay (d : Z) : Z := (d + 4) mod 7.

(** ECMA-262 [MakeDay]: months outside 0..11 carry into the year and
    the day of the month may be any integer. *)
Definition MakeDay (year month date : Z) : Z :=
  let ym := year + month / 12 in
  let mn := month mod 12 in
  DayFromYear ym + monthStart mn (InLeapYear ym) + date - 1.

(** [new Date(year, monthIndex, day)]: a year from 0 to 99 means 1900 + year. *)
Definition fullYear (year : Z) : Z :=
  if (0 <=? year) && (year <=? 99) then 1900 + year else year.

Definition newDate (year month day : Z) : Date :=
  MakeDay (fullYear year) month day.

Definition getFullYear (t : Date) : Z := YearFromDay t.
Definition getMonth (t : Date) : Z := MonthFromDay t.
Definition getDate (t : Date) : Z := DateFromDay t.
Definition getDay (t : Date) : Z := WeekDay t.

(** [t.setDate(n)]: the day [n] of [t]'s month, [n] being any integer. *)
Definition setDate (t : Date) (n : Z) : Date :=
  MakeDay (YearFromDay t) (MonthFromDay t) n.

End JSDate.

Import JSDate.

(** ** JavaScript primitive values *)

Module JS.

(** The primitive values a JSON-decoded field or a prop can hold.  An
    absent property reads as [VUndefined]. *)
Inductive value :=
| VUndefined
| VNull
| VBool (b : bool)
| VNum (x : float)
| VStr (s : string).

(** An object with primitive fields, keyed by property name. *)
Abbreviation obj := (gmap string value).

(** [o.k] *)
Definition get (o : obj) (k : string) : value := default VUndefined (o !! k).

(** [typeof v] *)
Definition typeof (v : value) : string :=
  match v with
  | VUndefined => "undefined"
  | VNull => "object"
  | VBool _ => "boolean"
  | VNum _ => "number"
  | VStr _ => "string"
  end.

(** ECMA-262 [ToBoolean]. *)
Definition ToBoolean (v : value) : bool :=
  match v with
  | VUndefined | VNull => false
  | VBool b => b
  | VNum x => negb (PrimFloat.is_zero x || PrimFloat.is_nan x)
  | VStr s => negb (String.eqb s "")
  end.

(** [a || b] *)
Definition or (a b : value) : value := if ToBoolean a then a else b.

(** [Math.round]: the nearest integer, ties towards +Infinity; NaN, the
    infinities and integers are returned as they are, and the sign of a
    zero result is the sign of the argument.  [Prim2SF x] is
    [(-1)^s * m * 2^e]. *)
Definition Math_round (x : float) : float :=
  match Prim2SF x with
  | S754_finite s m e =>
      if 0 <=? e then x
      else
        let n := if s then Z.neg m else Z.pos m in
        let q := (2 * n + 2 ^ (- e)) / 2 ^ (1 - e) in
        if q =? 0 then (if s then neg_zero else zero)
        else
          let a := PrimFloat.of_uint63 (Uint63.of_Z (Z.abs q)) in
          if q <? 0 then PrimFloat.opp a else a
  | _ => x
  end.

(** *** Numbers to strings *)

Definition digitChar (d : Z) : ascii := ascii_of_N (48 + Z.to_N d).

Fixpoint digitsFuel (fuel : nat) (n : Z) (acc : string) : string :=
  match fuel with
  | O => acc
  | S fuel' =>
      let acc' := String (digitChar (n mod 10)) acc in
      if n <? 10 then acc' else digitsFuel fuel' (n / 10) acc'
  end.

(** The decimal numeral of [n >= 0], which has at most [log2 n + 1] digits. *)
Definition decimal (n : Z) : string :=
  digitsFuel (S (Z.to_nat (Z.log2 n))) n "".

(** [String(n)] for an integer [n] of magnitude below 10^21. *)
Definition Integer_toString (n : Z) : string :=
  if n <? 0 then "-" +:+ decimal (- n) else decimal n.

Fixpoint zeros (n : nat) : string :=
  match n with O => "" | S n' => String "0" (zeros n') end.

Section ShortestDecimal.

(** A positive finite double [m * 2^e] as [Prim2SF] gives it. *)
Variables (m : positive) (e : Z).

(** The double below is at distance [2^e], unless [m * 2^e] is a power of
    two above the subnormal range, where it is at distance [2^(e-1)]. *)
Definition gap_below_quarters : Z :=
  if (Z.pos m =? 2 ^ 52) && (-1074 <? e) then 1 else 2.

(** The value and the two ends of the interval of reals that round to it,
    divided by [10^p], as numerators over the common denominator [den p]. *)
Definition den (p : Z) : Z := 2 ^ Z.max 0 (2 - e) * 10 ^ Z.max 0 p.
Definition scaled (p : Z) (quarters : Z) : Z :=
  quarters * 2 ^ Z.max 0 (e - 2) * 10 ^ Z.max 0 (- p).
Definition num_x (p : Z) : Z := scaled p (4 * Z.pos m).
Definition num_hi (p : Z) : Z := scaled p (4 * Z.pos m + 2).
Definition num_lo (p : Z) : Z := scaled p (4 * Z.pos m - gap_below_quarters).

(** Round to nearest, ties to even: the ends belong to the interval when
    the significand is even. *)
Definition closed_ends : bool := Z.even (Z.pos m).

(** The [k]-digit [s] with [s * 10^p] nearest to the double among those
    that round to it, if there is one. *)
Definition nearest (k p : Z) : option (Z * Z) :=
  let s0 := (2 * num_x p + den p) / (2 * den p) in
  let smin := if closed_ends then (num_lo p + den p - 1) / den p
              else num_lo p / den p + 1 in
  let smax := if closed_ends then num_hi p / den p
              else (num_hi p - 1) / den p in
  let lo := Z.max smin (10 ^ (k - 1)) in
  let hi := Z.min smax (10 ^ k - 1) in
  if hi <? lo then None else Some (Z.max lo (Z.min hi s0), p).

(** The distance of [s * 10^p] from the double, as a fraction. *)
Definition distance (c : Z * Z) : Z * Z :=
  let '(s, p) := c in
  (Z.abs (s * den p - num_x p) * 10 ^ Z.max 0 p, den p * 10 ^ Z.max 0 (- p)).

Definition closer (c1 c2 : Z * Z) : bool :=
  let '(a1, b1) := distance c1 in
  let '(a2, b2) := distance c2 in
  a1 * b2 <? a2 * b1.

Fixpoint closest (best : Z * Z) (cs : list (Z * Z)) : Z * Z :=
  match cs with
  | [] => best
  | c :: cs' => closest (if closer c best then c else best) cs'
  end.

(** A lower estimate of the decimal exponent: [2^b <= m * 2^e < 2^(b+1)]
    and [log10 2] is about 0.30103. *)
Definition exponent_estimate : Z := (Z.log2 (Z.pos m) + e) * 30103 / 100000.

Definition candidates (k : Z) : list (Z * Z) :=
  flat_map (fun i => match nearest k (exponent_estimate + i - k) with
                     | Some c => [c]
                     | None => []
                     end)
           [-1; 0; 1; 2; 3; 4].

(** The least [k] with a [k]-digit decimal that rounds to the double, with
    its digits [s] and exponent [n]: the decimal is [s * 10^(n-k)].
    Seventeen digits always suffice. *)
Fixpoint shortestFrom (fuel : nat) (k : Z) : Z * Z * Z :=
  match fuel with
  | O => (k, Z.pos m, 0)
  | S fuel' =>
      match candidates k with
      | [] => shortestFrom fuel' (k + 1)
      | c :: cs => let '(s, p) := closest c cs in (k, s, p + k)
      end
  end.

Definition shortest : Z * Z * Z := shortestFrom 17 1.

End ShortestDecimal.

(** The layout of ECMA-262 [Number::toString] for the [k] digits of [s]
    and the exponent [n]. *)
Definition formatDecimal (k s n : Z) : string :=
  let ds := decimal s in
  if (k <=? n) && (n <=? 21) then
    ds +:+ zeros (Z.to_nat (n - k))
  else if (0 <? n) && (n <=? 21) then
    substring 0 (Z.to_nat n) ds +:+ "." +:+
    substring (Z.to_nat n) (Z.to_nat (k - n)) ds
  else if (-6 <? n) && (n <=? 0) then
    "0." +:+ zeros (Z.to_nat (- n)) +:+ ds
  else
    let ex := (if n - 1 <? 0 then "-" else "+") +:+ decimal (Z.abs (n - 1)) in
    if k =? 1 then ds +:+ "e" +:+ ex
    else substring 0 1 ds +:+ "." +:+
         substring 1 (Z.to_nat (k - 1)) ds +:+ "e" +:+ ex.

(** ECMA-262 [Number::toString] in radix 10. *)
Definition Number_toString (x : float) : string :=
  match Prim2SF x with
  | S754_nan => "NaN"
  | S754_zero _ => "0"
  | S754_infinity s => if s then "-Infinity" else "Infinity"
  | S754_finite s m e =>
      let '(k, d, n) := shortest m e in
      (if s then "-" else "") +:+ formatDecimal k d n
  end.

(** ECMA-262 [ToString], which is also [String(v)]. *)
Definition ToString (v : value) : string :=
  match v with
  | VUndefined => "undefined"
  | VNull => "null"
  | VBool b => if b then "true" else "false"
  | VNum x => Number_toString x
  | VStr s => s
  end.

(** ECMA-262 [ToNumber] for the operands of [+] that reach it: [add]
    concatenates when an operand is a string, so the parsing of numeric
    strings is not modelled and the string case is never used. *)
Definition ToNumber (v : value) : float :=
  match v with
  | VNull => 0
  | VBool b => if b then 1 else 0
  | VNum x => x
  | VUndefined | VStr _ => nan
  end.

(** [a + b]: concatenation when either side is a string, else the sum of
    the two numbers. *)
Definition add (a b : value) : value :=
  match a, b with
  | VStr _, _ | _, VStr _ => VStr (ToString a +:+ ToString b)
  | _, _ => VNum (ToNumber a + ToNumber b)
  end.

(** [s.startsWith(p)] *)
Definition startsWith (s p : string) : bool := String.prefix p s.

(** [s.padStart(n, fill)] for a one-character [fill]. *)
Fixpoint fillString (fill : ascii) (n : nat) : string :=
  match n with O => "" | S n' => String fill (fillString fill n') end.

Definition padStart (s : string) (n : nat) (fill : ascii) : string :=
  fillString fill (n - String.length s) +:+ s.

(** [\d] of a regular expression. *)
Definition isDigit (c : ascii) : bool :=
  ((48 <=? nat_of_ascii c) && (nat_of_ascii c <=? 57))%nat.

Fixpoint allDigits (s : string) : bool :=
  match s with
  | EmptyString => true
  | String c s' => isDigit c && allDigits s'
  end.

(** The number read from decimal digits, continuing from [init]. *)
Definition readDigits (s : string) (init : Z) : Z :=
  fold_left (fun acc c => 10 * acc + (Z.of_nat (nat_of_ascii c) - 48))
            (list_ascii_of_string s) init.

(** [parseInt(s, 10)] of a string of decimal digits. *)
Definition parseDigits (s : string) : Z := readDigits s 0.

(** Whether [s] begins with the character [c]. *)
Definition headIs (c : ascii) (s : string) : bool :=
  match s with
  | String a _ => Ascii.eqb a c
  | EmptyString => false
  end.

End JS.

Import JS.

(** ** MacroChart.jsx *)

Record weekDates := { week_start : Date; week_end : Date }.

(** [getISOWeekDates(year, week)], lines 16-27. *)
Definition getISOWeekDates (year week : Z) : weekDates :=
  let simple := newDate year 0 (1 + (week - 1) * 7) in
  let dow := getDay simple in
  let ISOweekStart := simple in
  let ISOweekStart :=
    if dow <=? 4
    then setDate ISOweekStart (getDate simple - getDay simple + 1)
    else setDate ISOweekStart (getDate simple + 8 - getDay simple) in
  let ISOweekEnd := ISOweekStart in
  let ISOweekEnd := setDate ISOweekEnd (getDate ISOweekStart + 6) in
  {| week_start := ISOweekStart; week_end := ISOweekEnd |}.

(** The week-start rule in the words of the specification, for
    comparison with [getISOWeekDates]: the most recent Monday on or before
    a day, and the next Monday after it. *)
Definition mondayOnOrBefore (d : Date) : Date := d - (getDay d + 6) mod 7.
Definition mondayAfter (d : Date) : Date := d + 7 - (getDay d + 6) mod 7.

(** A weekly label is accepted by [/^\d{4}-W\d{1,2}$/]. *)
Definition weekLabelMatch (label : string) : bool :=
  match list_ascii_of_string label with
  | [y1; y2; y3; y4; dash; w; d1] =>
      isDigit y1 && isDigit y2 && isDigit y3 && isDigit y4 &&
      Ascii.eqb dash "-" && Ascii.eqb w "W" && isDigit d1
  | [y1; y2; y3; y4; dash; w; d1; d2] =>
      isDigit y1 && isDigit y2 && isDigit y3 && isDigit y4 &&
      Ascii.eqb dash "-" && Ascii.eqb w "W" && isDigit d1 && isDigit d2
  | _ => false
  end.

(** The weekly branch of [CustomTooltip] and [CustomXAxisTick] up to the
    two dates it formats: [label.split('-W')] of an accepted label is the
    four digits of the year and the digits of the week. *)
Definition weekLabelDates (label : string) : option weekDates :=
  if weekLabelMatch label then
    let year := substring 0 4 label in
    let weekStr := substring 6 (String.length label - 6) label in
    Some (getISOWeekDates (parseDigits year) (parseDigits weekStr))
  else None.

(** One [<Bar dataKey=... name=.../>] of the chart, lines 177-179. *)
Record bar := { dataKey : string; barName : string }.

Definition bars : list bar :=
  [ {| dataKey := "protein"; barName := "Protein" |};
    {| dataKey := "carbs"; barName := "Carbs" |};
    {| dataKey := "fat"; barName := "Fat" |} ].

(** One entry of the [payload] prop of the tooltip. *)
Record tooltipEntry := { entry_name : string; entry_value : value }.

(** What Recharts hands to the tooltip for a hovered bucket: one entry for
    each bar, holding the bucket's field named by the bar's [dataKey]. *)
Definition hoverPayload (bucket : obj) : list tooltipEntry :=
  map (fun b => {| entry_name := barName b;
                   entry_value := get bucket (dataKey b) |}) bars.

(** One series line of the tooltip: [<b>name:</b> value unit]. *)
Record tooltipRow := { row_name : string; row_value : value; row_unit : string }.

(** The tooltip below its date line: the series lines and the total
    line [Total: totalKcal kcal]. *)
Record tooltipView := {
  tip_rows : list tooltipRow;
  tip_total : value;
  tip_total_unit : string
}.

(** [CustomTooltip], lines 30-60, without the formatting of the date
    line; [payload] is [None] when the prop is missing. *)
Definition CustomTooltip (active : bool) (payload : option (list tooltipEntry))
    (unit : string) : option tooltipView :=
  match payload with
  | None => None
  | Some payload =>
      if negb active || (length payload =? 0)%nat then None
      else
        let totalKcal :=
          fold_left (fun sum entry => add sum (or (entry_value entry) (VNum 0)))
                    payload (VNum 0) in
        Some {| tip_rows :=
                  map (fun entry => {| row_name := entry_name entry;
                                       row_value := entry_value entry;
                                       row_unit := unit |}) payload;
                tip_total := totalKcal;
                tip_total_unit := "kcal" |}
  end.

(** [typeof v === 'number' ? v : 0] *)
Definition numberOrZero (v : value) : float :=
  match v with
  | VNum x => x
  | _ => 0
  end.

(** [Math.round(x) < 1 ? 0 : Math.round(x)] *)
Definition roundedSegment (x : float) : float :=
  if (Math_round x <? 1)%float then 0%float else Math_round x.

(** The body of the [chartData.map] of [convertedData], lines 107-120. *)
Definition convertDay (day : obj) : obj :=
  let protein := numberOrZero (get day "protein") in
  let carbs := numberOrZero (get day "carbs") in
  let fat := numberOrZero (get day "fat") in
  let calories := (protein * 4 + carbs * 4 + fat * 9)%float in
  <["total" := VNum (Math_round calories)]>
    (<["fat" := VNum (roundedSegment (fat * 9))]>
      (<["carbs" := VNum (roundedSegment (carbs * 4))]>
        (<["protein" := VNum (roundedSegment (protein * 4))]> day))).

Definition convertedData (chartData : list obj) : list obj :=
  map convertDay chartData.

(** [xAxisInterval], lines 124-131, for [n = convertedData.length]. *)
Definition xAxisInterval (viewMode : string) (n : nat) : Z :=
  if String.eqb viewMode "monthly" then 0
  else if (90 <? n)%nat then 29
  else if (30 <? n)%nat then 6
  else if (14 <? n)%nat then 2
  else if (7 <? n)%nat then 1
  else 0.

(** What [MacroChart] renders: a message in place of the chart, or the
    bar chart with its data, tick interval and bar size. *)
Inductive chartElement :=
| Placeholder (text : string)
| BarChart (data : list obj) (interval : Z) (barSize : Z).

Definition loadingMessage : string := "Loading chart data...".
Definition emptyMessage : string := "No data available for this period.".

(** [MacroChart], lines 92-184; [data] is [None] for [null]. *)
Definition MacroChart (unit viewMode : string) (data : option (list obj))
    (loading : bool) : chartElement :=
  let chartData :=
    match data with
    | Some d => if (0 <? length d)%nat then d else []
    | None => []
    end in
  if loading then Placeholder loadingMessage
  else if (length chartData =? 0)%nat then Placeholder emptyMessage
  else
    let converted := convertedData chartData in
    BarChart converted (xAxisInterval viewMode (length converted))
             (if String.eqb viewMode "daily" then 30 else 50).

(** A number as [x || 0] counts it. *)
Definition countedValue (x : float) : float :=
  if PrimFloat.is_zero x || PrimFloat.is_nan x then 0%float else x.

(** The bucket of the specification's example. *)
Definition exampleDay : obj :=
  <["fat" := VNum 70]> (<["carbs" := VNum 200]>
    (<["protein" := VNum 50]> (<["name" := VStr "2024-01"]> ∅))).

(** A bucket with a string for protein, no carbs and [null] for fat. *)
Definition brokenDay : obj :=
  <["fat" := VNull]> (<["protein" := VStr "12"]> (<["name" := VStr "2024-01-05"]> ∅)).

(** A bucket with 0.375 g of protein, 0.375 g of carbs and 0.5 g of fat:
    1.5, 1.5 and 4.5 kcal before rounding. *)
Definition fractionalDay : obj :=
  <["fat" := VNum 0.5]> (<["carbs" := VNum 0.375]>
    (<["protein" := VNum 0.375]> (<["name" := VStr "2024-01-05"]> ∅))).

Definition valueIs (x : float) (v : value) : bool :=
  match v with
  | VNum y => (y =? x)%float
  | _ => false
  end.

(** ** App.jsx *)

(** [getLocalDateString(date)], lines 26-28. *)
Definition getLocalDateString (date : Date) : string :=
  Integer_toString (getFullYear date) +:+ "-" +:+
  padStart (Integer_toString (getMonth date + 1)) 2 "0" +:+ "-" +:+
  padStart (Integer_toString (getDate date)) 2 "0".

Record customMacros := {
  cm_calories : value;
  cm_protein : value;
  cm_carbs : value;
  cm_totalFat : value;
  cm_name : value
}.

(** One element of [plateItems]; [custom_macros] is [None] when the
    object has no such property. *)
Record plateItem := {
  food_id : value;
  quantity : value;
  custom_macros : option customMacros
}.

(** The callback of [trackedItems.map], lines 82-100. *)
Definition toPlateItem (item : obj) : plateItem :=
  let foodId := or (get item "id") (get item "_id") in
  let isCustom := startsWith (ToString foodId) "custom-" in
  {| food_id := foodId;
     quantity := or (get item "quantity") (VNum 1);
     custom_macros :=
       if isCustom then
         Some {| cm_calories := get item "calories";
                 cm_protein := get item "protein";
                 cm_carbs := get item "carbs";
                 cm_totalFat := get item "totalFat";
                 cm_name := get item "name" |}
       else None |}.

(** The object given to [JSON.stringify] for the request body. *)
Record platePayload := { plate_date : string; plate_items : list plateItem }.

Record request := {
  req_url : string;
  req_method : string;
  req_headers : list (string * string);
  req_credentials : string;
  req_body : platePayload
}.

(** The state of [App] that [handleSavePlate] reads or writes, and the
    lines written with [console.error]. *)
Record AppState := {
  trackedItems : list obj;
  date : Date;
  nutritionHistoryVersion : Z;
  consoleErrors : list string
}.

(** How the promise of [fetch] settles: with a response, whose [ok] flag
    is all that is read, or with a rejection. *)
Inductive fetchOutcome :=
| Response (ok : bool)
| NetworkFailure.

(** How the promise of [handleSavePlate] settles. *)
Inductive completion :=
| Fulfilled
| Rejected.

(** [handleSavePlate] up to its [await], lines 82-109: the request sent. *)
Definition savePlateRequest (st : AppState) : request :=
  let plateItems := map toPlateItem (trackedItems st) in
  {| req_url := "/api/plate";
     req_method := "POST";
     req_headers := [("Content-Type", "application/json")];
     req_credentials := "include";
     req_body := {| plate_date := getLocalDateString (date st);
                    plate_items := plateItems |} |}.

(** [handleSavePlate] after its [await], lines 110-115, on the state the
    component has by then.  A rejected [fetch] makes the [await] throw. *)
Definition savePlateSettle (outcome : fetchOutcome) (st : AppState)
    : AppState * completion :=
  match outcome with
  | Response true =>
      ({| trackedItems := trackedItems st;
          date := date st;
          nutritionHistoryVersion := nutritionHistoryVersion st + 1;
          consoleErrors := consoleErrors st |}, Fulfilled)
  | Response false =>
      ({| trackedItems := trackedItems st;
          date := date st;
          nutritionHistoryVersion := nutritionHistoryVersion st;
          consoleErrors := consoleErrors st ++ ["Failed to save plate"] |},
       Fulfilled)
  | NetworkFailure => (st, Rejected)
  end.

(** One whole run of [handleSavePlate]. *)
Definition handleSavePlate (st : AppState) (outcome : fetchOutcome)
    : request * (AppState * completion) :=
  (savePlateRequest st, savePlateSettle outcome st).

(** [s] is [YYYY-MM-DD] for the given year, month (from 1) and day. *)
Definition isYearMonthDay (s : string) (year month day : Z) : Prop :=
  exists yyyy mm dd : string,
    s = yyyy +:+ "-" +:+ mm +:+ "-" +:+ dd /\
    (String.length yyyy = 4%nat /\ allDigits yyyy = true /\ parseDigits yyyy = year) /\
    (String.length mm = 2%nat /\ allDigits mm = true /\ parseDigits mm = month) /\
    (String.length dd = 2%nat /\ allDigits dd = true /\ parseDigits dd = day).

(** A user-defined food and a food of the menu, as tracked. *)
Definition customItem : obj :=
  <["uniqueId" := VStr "a1"]> (<["quantity" := VNum 2]>
    (<["totalFat" := VNum 5]> (<["carbs" := VNum 30]> (<["protein" := VNum 20]>
      (<["calories" := VNum 245]> (<["name" := VStr "Shake"]>
        (<["id" := VStr "custom-123"]> ∅))))))).

Definition menuItem : obj :=
  <["uniqueId" := VStr "b2"]> (<["quantity" := VNum 0]>
    (<["name" := VStr "Rice"]> (<["id" := VStr "45"]> ∅))).

Definition exampleState : AppState :=
  {| trackedItems := [customItem; menuItem];
     date := newDate 2024 0 5;
     nutritionHistoryVersion := 0;
     consoleErrors := [] |}.

(** The state after a run of saves, one outcome for each. *)
Fixpoint runSaves (outcomes : list fetchOutcome) (st : AppState) : AppState :=
  match outcomes with
  | [] => st
  | o :: os => runSaves os (fst (savePlateSettle o st))
  end.

Definition isOk (o : fetchOutcome) : bool :=
  match o with
  | Response ok => ok
  | NetworkFailure => false
  end.

Fixpoint okResponses (outcomes : list fetchOutcome) : Z :=
  match outcomes with
  | [] => 0
  | o :: os => (if isOk o then 1 else 0) + okResponses os
  end.

(** ** MacroChart.jsx: the labels of the axis and of the tooltip *)

(** What the file uses of date-fns: [format] with the patterns 'MMM d'
    and 'MMM yyyy' in the default locale, and [parseISO]. *)
Module DateFns.

(** The token [MMM], for the month index from 0. *)
Definition monthAbbrev (month : Z) : string :=
  match month with
  | 0 => "Jan"
  | 1 => "Feb"
  | 2 => "Mar"
  | 3 => "Apr"
  | 4 => "May"
  | 5 => "Jun"
  | 6 => "Jul"
  | 7 => "Aug"
  | 8 => "Sep"
  | 9 => "Oct"
  | 10 => "Nov"
  | _ => "Dec"
  end.

(** [format(date, 'MMM d')] of a valid date. *)
Definition format_MMM_d (t : Date) : string :=
  monthAbbrev (getMonth t) +:+ " " +:+ Integer_toString (getDate t).

(** [format(date, 'MMM yyyy')] of a valid date: [yyyy] is the year of the
    era (1 - year for a year that is not positive) on at least four digits. *)
Definition format_MMM_yyyy (t : Date) : string :=
  let year := if 0 <? getFullYear t then getFullYear t else 1 - getFullYear t in
  monthAbbrev (getMonth t) +:+ " " +:+ padStart (Integer_toString year) 4 "0".

(** The days of a month (index from 0), as [parseISO] validates them. *)
Definition daysInMonth (year month : Z) : Z :=
  match month with
  | 1 => 28 + InLeapYear year
  | 3 | 5 | 8 | 10 => 30
  | _ => 31
  end.

(** A calendar date in the extended format, four digits, two and two. *)
Definition isoDateMatch (s : string) : bool :=
  match list_ascii_of_string s with
  | [y1; y2; y3; y4; dash1; m1; m2; dash2; d1; d2] =>
      isDigit y1 && isDigit y2 && isDigit y3 && isDigit y4 &&
      Ascii.eqb dash1 "-" && isDigit m1 && isDigit m2 &&
      Ascii.eqb dash2 "-" && isDigit d1 && isDigit d2
  | _ => false
  end.

(** [parseISO] of such a string: the local day of that year, month and
    day, or [None] for the Invalid Date it returns when the month is not
    01 to 12 or the day is not a day of the month. *)
Definition parseISODate (s : string) : option Date :=
  let year := parseDigits (substring 0 4 s) in
  let month := parseDigits (substring 5 2 s) - 1 in
  let day := parseDigits (substring 8 2 s) in
  if (0 <=? month) && (month <=? 11) && (1 <=? day) &&
     (day <=? daysInMonth year month)
  then Some (MakeDay year month day)
  else None.

Section ParseISO.

(** [parseISO] on the strings of every other form (basic format, week
    and ordinal dates, times and zones), with [None] for Invalid Date. *)
Variable parseISO_other : string -> option Date.

Definition parseISO (s : string) : option Date :=
  if isoDateMatch s then parseISODate s else parseISO_other s.

End ParseISO.

End DateFns.

Import DateFns.

(** A monthly label is accepted by [/^\d{4}-\d{2}$/]. *)
Definition monthLabelMatch (label : string) : bool :=
  match list_ascii_of_string label with
  | [y1; y2; y3; y4; dash; m1; m2] =>
      isDigit y1 && isDigit y2 && isDigit y3 && isDigit y4 &&
      Ascii.eqb dash "-" && isDigit m1 && isDigit m2
  | _ => false
  end.

(** The weekly branch, lines 35-40 and 71-76: the two dates as
    'MMM d' around an en dash, or the label as it is. *)
Definition weekLabel (label : string) : string :=
  match weekLabelDates label with
  | Some r => format_MMM_d (week_start r) +:+ "–" +:+ format_MMM_d (week_end r)
  | None => label
  end.

Section Labels.

Variable parseISO_other : string -> option Date.

(** The monthly branch, lines 42-46 and 78-82; [format] throws on an
    Invalid Date and the [catch] keeps the label. *)
Definition monthLabel (label : string) : string :=
  if monthLabelMatch label then
    match parseISO parseISO_other (label +:+ "-01") with
    | Some t => format_MMM_yyyy t
    | None => label
    end
  else label.

(** [displayLabel] of [CustomTooltip], lines 33-47. *)
Definition displayLabel (viewMode label : string) : string :=
  if String.eqb viewMode "weekly" then weekLabel label
  else if String.eqb viewMode "monthly" then monthLabel label
  else label.

(** [label] of [CustomXAxisTick], lines 65-83. *)
Definition tickLabel (viewMode label : string) : string :=
  if String.eqb viewMode "daily" then
    match parseISO parseISO_other label with
    | Some t => format_MMM_d t
    | None => label
    end
  else if String.eqb viewMode "weekly" then weekLabel label
  else if String.eqb viewMode "monthly" then monthLabel label
  else label.

End Labels.

(** The number of ticks Recharts labels among [n] with [interval = k]:
    the first and then every [(k+1)]-th. *)
Definition labelsDrawn (n : nat) (k : Z) : Z := (Z.of_nat n + k) / (k + 1).

(** A key of four digits (padded with zeros) for a year, and of two for
    a month, a day or a week number. *)
Definition fourDigits (n : Z) : string := padStart (Integer_toString n) 4 "0".
Definition twoDigits (n : Z) : string := padStart (Integer_toString n) 2 "0".

(** ** App.jsx: the tracker *)

(** [a === b] on primitive values. *)
Definition strictEquals (a b : value) : bool :=
  match a, b with
  | VUndefined, VUndefined => true
  | VNull, VNull => true
  | VBool x, VBool y => Bool.eqb x y
  | VNum x, VNum y => (x =? y)%float
  | VStr x, VStr y => String.eqb x y
  | _, _ => false
  end.

(** [setTrackedItems(f)] with an updater [f]. *)
Definition setTrackedItems (f : list obj -> list obj) (st : AppState) : AppState :=
  {| trackedItems := f (trackedItems st);
     date := date st;
     nutritionHistoryVersion := nutritionHistoryVersion st;
     consoleErrors := consoleErrors st |}.

(** [addToTracker(item, quantity = 1)], lines 64-71; [uuid] is what
    [crypto.randomUUID()] returns, and [quantity] is [VUndefined] when
    the argument is left out. *)
Definition addToTracker (uuid : string) (item : obj) (quantity : value)
    (st : AppState) : AppState :=
  let quantity := match quantity with VUndefined => VNum 1 | q => q end in
  let newItem := <["uniqueId" := VStr uuid]> (<["quantity" := quantity]> item) in
  setTrackedItems (fun prev => prev ++ [newItem]) st.

(** [removeFromTracker(itemId)], lines 73-75. *)
Definition removeFromTracker (itemId : value) (st : AppState) : AppState :=
  setTrackedItems
    (fun prev => List.filter
                   (fun item => negb (strictEquals (get item "uniqueId") itemId))
                   prev) st.

(** [clearTracker()], lines 77-79. *)
Definition clearTracker (st : AppState) : AppState :=
  setTrackedItems (fun _ => []) st.

(** ** App.jsx: the routes *)

(** What [useAuth()] gives: [user] is [None] for [null]. *)
Record auth := { auth_user : option obj; auth_loading : bool }.

Inductive page :=
| LoginPage
| RegisterPage
| ForgotPasswordPage
| ResetPasswordPage
| AuthCallbackPage
| PrivacyPolicyPage
| DashboardPage
| ProfileSettingsPage
| UserAccountPage
| NutritionHistoryPage.

(** What a route element renders: a page, the text "Loading...", or a
    [<Navigate to=... />]. *)
Inductive element :=
| Show (p : page)
| LoadingText
| Navigate (to : string) (replace : bool).

(** [PrivateRoute], lines 31-42. *)
Definition PrivateRoute (a : auth) (children : element) : element :=
  if auth_loading a then LoadingText
  else
    match auth_user a with
    | None => Navigate "/login" true
    | Some user =>
        if ToBoolean (get user "guest") then Navigate "/login" true
        else children
    end.

(** The routes of lines 120-203. *)
Inductive route :=
| LoginRoute
| RegisterRoute
| ForgotPasswordRoute
| ResetPasswordRoute
| AuthCallbackRoute
| PrivacyRoute
| IndexRoute
| DashboardRoute
| ProfileRoute
| AccountRoute
| HistoryRoute
| CatchAllRoute.

(** The route of a location, for the paths as the routes spell them;
    any other path under "/" falls to the catch-all. *)
Definition matchPath (path : string) : route :=
  if String.eqb path "/login" then LoginRoute
  else if String.eqb path "/register" then RegisterRoute
  else if String.eqb path "/forgot-password" then ForgotPasswordRoute
  else if String.eqb path "/reset-password" then ResetPasswordRoute
  else if String.eqb path "/auth/callback" then AuthCallbackRoute
  else if String.eqb path "/privacy" then PrivacyRoute
  else if String.eqb path "/" then IndexRoute
  else if String.eqb path "/dashboard" then DashboardRoute
  else if String.eqb path "/profile" then ProfileRoute
  else if String.eqb path "/account" then AccountRoute
  else if String.eqb path "/history" then HistoryRoute
  else CatchAllRoute.

(** The [element] prop of each route. *)
Definition routeElement (a : auth) (r : route) : element :=
  let signedIn := match auth_user a with Some _ => true | None => false end in
  match r with
  | LoginRoute => if signedIn then Navigate "/dashboard" false else Show LoginPage
  | RegisterRoute => if signedIn then Navigate "/dashboard" false else Show RegisterPage
  | ForgotPasswordRoute =>
      if signedIn then Navigate "/dashboard" false else Show ForgotPasswordPage
  | ResetPasswordRoute =>
      if signedIn then Navigate "/dashboard" false else Show ResetPasswordPage
  | AuthCallbackRoute => Show AuthCallbackPage
  | PrivacyRoute => Show PrivacyPolicyPage
  | IndexRoute => Navigate (if signedIn then "dashboard" else "login") false
  | DashboardRoute => Show DashboardPage
  | ProfileRoute => PrivateRoute a (Show ProfileSettingsPage)
  | AccountRoute => PrivateRoute a (Show UserAccountPage)
  | HistoryRoute => PrivateRoute a (Show NutritionHistoryPage)
  | CatchAllRoute => Navigate "/" false
  end.

(** Where a [Navigate] leads: a target that does not start with "/" is
    relative, and the only route that has one, the index route, is at "/". *)
Definition navigateTarget (to : string) : route :=
  if startsWith to "/" then matchPath to else matchPath ("/" +:+ to).

(** Following the redirects from a route, at most [fuel] of them:
    what is rendered in the end, or [None] when redirects remain. *)
Fixpoint settle (fuel : nat) (a : auth) (r : route) : option element :=
  match routeElement a r with
  | Navigate to _ =>
      match fuel with
      | O => None
      | S fuel' => settle fuel' a (navigateTarget to)
      end
  | e => Some e
  end.

Definition isNavigate (e : element) : bool :=
  match e with
  | Navigate _ _ => true
  | _ => false
  end.

Definition isPrivatePage (p : page) : bool :=
  match p with
  | ProfileSettingsPage | UserAccountPage | NutritionHistoryPage => true
  | _ => false
  end.

Definition isPrivateRoute (r : route) : bool :=
  match r with
  | ProfileRoute | AccountRoute | HistoryRoute => true
  | _ => false
  end.

(** A user who is signed in and not a guest. *)
Definition memberUser : obj := <["guest" := VBool false]> (<["email" := VStr "a@b.c"]> ∅).

(** A guest session. *)
Definition guestUser : obj := <["guest" := VBool true]> ∅.

(** ** The model on known values *)

Example Math_round_values :
  map Math_round [2.5; -2.5; 0.25; -0.25; 0.5; -0.5; -0.75; 1630; nan; infinity]%float
  = [3; -2; 0; -0; 1; -0; -1; 1630; nan; infinity]%float.
Proof. vm_compute. reflexivity. Qed.

Example Number_toString_values :
  map Number_toString [45; -45; 0.5; 2.5; 1630; 0.000244140625; -0; nan]%float
  = ["45"; "-45"; "0.5"; "2.5"; "1630"; "0.000244140625"; "0"; "NaN"].
Proof. vm_compute. reflexivity. Qed.

Example Number_toString_integers :
  Number_toString 2024 = Integer_toString 2024 /\
  Number_toString 12 = Integer_toString 12.
Proof. vm_compute. split; reflexivity. Qed.

Example getLocalDateString_values :
  map getLocalDateString [newDate 2024 0 5; newDate 2024 1 29; newDate 2023 11 31;
                          newDate 2023 0 32; 0]
  = ["2024-01-05"; "2024-02-29"; "2023-12-31"; "2023-02-01"; "1970-01-01"].
Proof. vm_compute. reflexivity. Qed.

Example getISOWeekDates_values :
  option_map (fun r => (getLocalDateString (week_start r),
                        getLocalDateString (week_end r)))
             (weekLabelDates "2024-W10")
  = Some ("2024-03-04", "2024-03-10") /\
  weekLabelDates "2024-10" = None /\
  weekLabelDates "2024-W123" = None.
Proof. vm_compute. repeat split. Qed.

(** ** Tactics *)

(** Case analysis on every conditional of the goal. *)
Ltac split_ifs :=
  repeat match goal with
         | |- context [if ?c then _ else _] => destruct c
         end.

(** Case analysis on the integer and natural comparisons of the goal,
    keeping what each outcome says. *)
Ltac split_comparisons :=
  repeat match goal with
         | |- context [Z.ltb ?a ?b] => destruct (Z.ltb_spec a b)
         | |- context [Z.leb ?a ?b] => destruct (Z.leb_spec a b)
         | |- context [Z.eqb ?a ?b] => destruct (Z.eqb_spec a b)
         | |- context [Nat.ltb ?a ?b] => destruct (Nat.ltb_spec a b)
         | |- context [Nat.leb ?a ?b] => destruct (Nat.leb_spec a b)
         end.

(** Case analysis on who is visiting: loading or not, no user, a guest
    or a full user. *)
Ltac by_visitor a :=
  let u := fresh "user" in
  let g := fresh "guest" in
  destruct a as [[u|] []];
  unfold settle, routeElement, PrivateRoute;
  cbn [auth_user auth_loading];
  try (set (g := ToBoolean (get u "guest")) in *; clearbody g; destruct g).

(** ** Day arithmetic lemmas *)

Lemma MonthFromDay_range (d : Z) : 0 <= MonthFromDay d <= 11.
Proof.
  unfold MonthFromDay. split_ifs; lia.
Qed.

(** [setDate] with the current day of the month is the identity, and an
    offset to the day of the month is an offset in days. *)
Lemma setDate_getDate_offset (t : Date) (k : Z) :
  setDate t (getDate t + k) = t + k.
Proof.
  unfold setDate, getDate, DateFromDay, DayWithinYear, MakeDay.
  pose proof (MonthFromDay_range t) as Hm.
  rewrite (Z.div_small (MonthFromDay t) 12), (Z.mod_small (MonthFromDay t) 12) by lia.
  rewrite Z.add_0_r. lia.
Qed.

Lemma WeekDay_range (d : Z) : 0 <= WeekDay d <= 6.
Proof. unfold WeekDay. pose proof (Z.mod_pos_bound (d + 4) 7). lia. Qed.

Lemma WeekDay_add_week (d k : Z) : WeekDay (d + k * 7) = WeekDay d.
Proof.
  unfold WeekDay.
  replace (d + k * 7 + 4) with (d + 4 + k * 7) by lia.
  apply Z.mod_add. lia.
Qed.

(** Going back by the weekday number reaches a Sunday, one day more a Monday. *)
Lemma WeekDay_monday_from (d : Z) : WeekDay (d + 1 - WeekDay d) = 1.
Proof.
  unfold WeekDay.
  pose proof (Z.div_mod (d + 4) 7 ltac:(lia)) as E.
  replace (d + 1 - (d + 4) mod 7 + 4) with (1 + (d + 4) / 7 * 7) by lia.
  rewrite Z.mod_add by lia. reflexivity.
Qed.

Lemma YearFromDay_spec (d : Z) :
  DayFromYear (YearFromDay d) <= d < DayFromYear (YearFromDay d + 1).
Proof.
  unfold YearFromDay. cbv zeta.
  set (y := 1970 + 400 * d / 146097).
  assert (Hy : 146097 * (y - 1970) <= 400 * d < 146097 * (y - 1970) + 146097).
  { unfold y. pose proof (Z.div_mod (400 * d) 146097 ltac:(lia)).
    pose proof (Z.mod_pos_bound (400 * d) 146097 ltac:(lia)). lia. }
  clearbody y.
  destruct (Z.ltb_spec d (DayFromYear y));
    [|destruct (Z.leb_spec (DayFromYear (y + 1)) d)];
    unfold DayFromYear in *; Z.div_mod_to_equations; lia.
Qed.

Lemma DayFromYear_step (y : Z) :
  DayFromYear (y + 1) = DayFromYear y + DaysInYear y.
Proof.
  unfold DayFromYear, DaysInYear.
  split_comparisons; cbn [negb]; Z.div_mod_to_equations; lia.
Qed.

Lemma DaysInYear_cases (y : Z) : DaysInYear y = 365 \/ DaysInYear y = 366.
Proof.
  unfold DaysInYear. split_ifs; auto.
Qed.

Lemma DayFromYear_mono (y y' : Z) : y <= y' -> DayFromYear y <= DayFromYear y'.
Proof. unfold DayFromYear. intros H. Z.div_mod_to_equations. lia. Qed.

(** A day within the days of year [y] belongs to year [y]. *)
Lemma YearFromDay_unique (d y : Z) :
  DayFromYear y <= d < DayFromYear (y + 1) -> YearFromDay d = y.
Proof.
  intros [Hlo Hhi]. pose proof (YearFromDay_spec d) as [Slo Shi].
  destruct (Z.lt_trichotomy (YearFromDay d) y) as [Hlt | [Heq | Hgt]]; [|exact Heq|].
  - pose proof (DayFromYear_mono (YearFromDay d + 1) y ltac:(lia)). lia.
  - pose proof (DayFromYear_mono (y + 1) (YearFromDay d) ltac:(lia)). lia.
Qed.

Lemma DayWithinYear_range (d : Z) :
  0 <= DayWithinYear d < DaysInYear (YearFromDay d).
Proof.
  unfold DayWithinYear. pose proof (YearFromDay_spec d) as H.
  rewrite DayFromYear_step in H. lia.
Qed.

Lemma DateFromDay_range (d : Z) : 1 <= DateFromDay d <= 31.
Proof.
  unfold DateFromDay, MonthFromDay. cbv zeta.
  pose proof (DayWithinYear_range d) as Hw. unfold InLeapYear.
  destruct (DaysInYear_cases (YearFromDay d)) as [E | E]; rewrite E in *;
    split_comparisons; cbn [monthStart]; lia.
Qed.

(** January 1 of a year, read back through the getters. *)
Lemma DayFromYear_getters (y : Z) :
  getFullYear (DayFromYear y) = y /\ getMonth (DayFromYear y) = 0 /\
  getDate (DayFromYear y) = 1.
Proof.
  assert (Hy : YearFromDay (DayFromYear y) = y).
  { apply YearFromDay_unique. rewrite DayFromYear_step.
    destruct (DaysInYear_cases y); lia. }
  unfold getFullYear, getMonth, getDate, DateFromDay, MonthFromDay, DayWithinYear.
  rewrite Hy, Z.sub_diag. cbn. auto.
Qed.

Lemma newDate_january (year day : Z) :
  newDate year 0 day = DayFromYear (fullYear year) + day - 1.
Proof.
  unfold newDate, MakeDay.
  change (0 / 12) with 0. change (0 mod 12) with 0.
  cbn [monthStart]. rewrite !Z.add_0_r. lia.
Qed.

Lemma getISOWeekDates_start (year week : Z) :
  let simple := newDate year 0 (1 + (week - 1) * 7) in
  week_start (getISOWeekDates year week) =
    if getDay simple <=? 4 then simple - getDay simple + 1
    else simple + 8 - getDay simple.
Proof.
  cbv zeta. unfold getISOWeekDates. cbv zeta. cbn [week_start].
  set (simple := newDate _ _ _).
  destruct (getDay simple <=? 4).
  - replace (getDate simple - getDay simple + 1)
      with (getDate simple + (1 - getDay simple)) by lia.
    rewrite setDate_getDate_offset. lia.
  - replace (getDate simple + 8 - getDay simple)
      with (getDate simple + (8 - getDay simple)) by lia.
    rewrite setDate_getDate_offset. lia.
Qed.

Lemma getISOWeekDates_end (year week : Z) :
  week_end (getISOWeekDates year week) =
    week_start (getISOWeekDates year week) + 6.
Proof.
  unfold getISOWeekDates. cbv zeta. cbn [week_start week_end].
  apply setDate_getDate_offset.
Qed.

Lemma getISOWeekDates_monday (year week : Z) :
  getDay (week_start (getISOWeekDates year week)) = 1.
Proof.
  rewrite getISOWeekDates_start. cbv zeta.
  set (simple := newDate _ _ _).
  destruct (getDay simple <=? 4).
  - replace (simple - getDay simple + 1) with (simple + 1 - getDay simple) by lia.
    apply WeekDay_monday_from.
  - replace (simple + 8 - getDay simple)
      with (simple + 1 - getDay simple + 1 * 7) by lia.
    unfold getDay at 1. rewrite WeekDay_add_week. apply WeekDay_monday_from.
Qed.

(** C3: for every year and week number, the week start and week end
    returned by [getISOWeekDates] are exactly 6 days apart and the week
    start falls on a Monday ([getDay] = 1). *)
Theorem C3_week_six_days_from_monday (year week : Z) :
  let r := getISOWeekDates year week in
  week_end r - week_start r = 6 /\ getDay (week_start r) = 1.
Proof.
  cbv zeta. split.
  - rewrite getISOWeekDates_end. lia.
  - apply getISOWeekDates_monday.
Qed.

(** The same for the dates of every label the weekly view accepts. *)
Lemma weekLabelDates_monday (label : string) (r : weekDates) :
  weekLabelDates label = Some r ->
  week_end r = week_start r + 6 /\ getDay (week_start r) = 1.
Proof.
  unfold weekLabelDates. destruct (weekLabelMatch label); [|discriminate].
  intros [= <-]. split; [apply getISOWeekDates_end|apply getISOWeekDates_monday].
Qed.

Lemma getDay_shift_mod (d : Z) : (getDay d + 6) mod 7 = (d + 3) mod 7.
Proof.
  unfold getDay, WeekDay.
  rewrite Z.add_mod_idemp_l by lia. 
  replace (d + 4 + 6) with (d + 3 + 1 * 7) by lia.
  apply Z.mod_add. lia.
Qed.

(** The two Mondays of the specification's wording are Mondays, the one
    within the week that ends at the day, the other within the week after. *)
Lemma mondayOnOrBefore_spec (d : Date) :
  getDay (mondayOnOrBefore d) = 1 /\
  mondayOnOrBefore d <= d < mondayOnOrBefore d + 7.
Proof.
  unfold mondayOnOrBefore. rewrite getDay_shift_mod.
  unfold getDay, WeekDay. split; Z.div_mod_to_equations; lia.
Qed.

Lemma mondayAfter_spec (d : Date) :
  getDay (mondayAfter d) = 1 /\ d < mondayAfter d <= d + 7.
Proof.
  unfold mondayAfter. rewrite getDay_shift_mod.
  unfold getDay, WeekDay. split; Z.div_mod_to_equations; lia.
Qed.

(** C1, as the code has it: the anchor is January 1 plus [(w-1)*7] days,
    January 1 being that of the year the [Date] constructor gives to [y]
    ([y] itself, but [1900 + y] for [y] from 0 to 99); when the anchor's
    weekday is 1 to 4 (Monday to Thursday) the week start is the most
    recent Monday on or before the anchor; when it is 0 (Sunday), 5 or 6
    the week start is the next Monday after the anchor; the week end is
    the week start plus 6 days. *)
Theorem C1_week_start_rule (y w : Z) :
  let jan1 := newDate y 0 1 in
  let anchor := newDate y 0 (1 + (w - 1) * 7) in
  let r := getISOWeekDates y w in
  (getFullYear jan1 = fullYear y /\ getMonth jan1 = 0 /\ getDate jan1 = 1) /\
  anchor = jan1 + (w - 1) * 7 /\
  week_start r =
    (if (1 <=? getDay anchor) && (getDay anchor <=? 4)
     then mondayOnOrBefore anchor else mondayAfter anchor) /\
  week_end r = week_start r + 6.
Proof.
  cbv zeta. split; [|split; [|split]].
  - rewrite newDate_january.
    replace (DayFromYear (fullYear y) + 1 - 1) with (DayFromYear (fullYear y)) by lia.
    apply DayFromYear_getters.
  - rewrite !newDate_january. lia.
  - rewrite getISOWeekDates_start. cbv zeta.
    set (anchor := newDate _ _ _).
    unfold mondayOnOrBefore, mondayAfter. rewrite getDay_shift_mod.
    unfold getDay, WeekDay.
    destruct (Z.leb_spec ((anchor + 4) mod 7) 4);
      destruct (Z.leb_spec 1 ((anchor + 4) mod 7)); cbn [andb];
      Z.div_mod_to_equations; lia.
  - apply getISOWeekDates_end.
Qed.

(** C1 as stated fails when the anchor is a Sunday: the label "2023-W01"
    gives the anchor 2023-01-01, whose weekday 0 is at most 4, and the
    week start is the day after the anchor, not the Monday before it.
    It also fails for a year below 100: the label "0050-W01" is anchored
    on January 1 of 1950. *)
Lemma C1_sunday_anchor_counterexample :
  let anchor := newDate 2023 0 (1 + (1 - 1) * 7) in
  (weekLabelDates "2023-W01" = Some (getISOWeekDates 2023 1) /\
   getDay anchor <= 4 /\
   week_start (getISOWeekDates 2023 1) = anchor + 1 /\
   week_start (getISOWeekDates 2023 1) <> mondayOnOrBefore anchor) /\
  (weekLabelDates "0050-W01" = Some (getISOWeekDates 50 1) /\
   getFullYear (newDate 50 0 (1 + (1 - 1) * 7)) = 1950).
Proof.
  cbv zeta. split.
  - split; [reflexivity|]. split; [vm_compute; discriminate|].
    split; [reflexivity|]. vm_compute. discriminate.
  - split; reflexivity.
Qed.

(** ** The chart's values *)

Lemma typeof_number_inv (v : value) :
  String.eqb (typeof v) "number" = true -> v = VNum (numberOrZero v).
Proof. destruct v; cbn; intros H; try discriminate H; reflexivity. Qed.

Lemma numberOrZero_not_number (v : value) :
  String.eqb (typeof v) "number" = false -> numberOrZero v = 0%float.
Proof. destruct v; cbn; intros H; try discriminate H; reflexivity. Qed.

Lemma get_absent (o : obj) (k : string) : o !! k = None -> get o k = VUndefined.
Proof. unfold get. intros ->. reflexivity. Qed.

Lemma get_insert_eq (o : obj) (k : string) (v : value) :
  get (<[k := v]> o) k = v.
Proof. unfold get. rewrite lookup_insert_eq. reflexivity. Qed.

Lemma get_insert_ne (o : obj) (k k' : string) (v : value) :
  k <> k' -> get (<[k := v]> o) k' = get o k'.
Proof. intros H. unfold get. rewrite lookup_insert_ne by exact H. reflexivity. Qed.

(** The four fields [convertDay] writes, and the fields it leaves alone. *)
Lemma convertDay_fields (day : obj) :
  let protein := numberOrZero (get day "protein") in
  let carbs := numberOrZero (get day "carbs") in
  let fat := numberOrZero (get day "fat") in
  get (convertDay day) "protein" = VNum (roundedSegment (protein * 4)) /\
  get (convertDay day) "carbs" = VNum (roundedSegment (carbs * 4)) /\
  get (convertDay day) "fat" = VNum (roundedSegment (fat * 9)) /\
  get (convertDay day) "total" =
    VNum (Math_round (protein * 4 + carbs * 4 + fat * 9)).
Proof.
  cbv zeta. unfold convertDay.
  split; [|split; [|split]];
    repeat (rewrite get_insert_ne by discriminate);
    apply get_insert_eq.
Qed.

Lemma convertDay_other_field (day : obj) (k : string) :
  k <> "protein" -> k <> "carbs" -> k <> "fat" -> k <> "total" ->
  get (convertDay day) k = get day k.
Proof.
  intros Hp Hc Hf Ht. unfold convertDay.
  rewrite !get_insert_ne by congruence. reflexivity.
Qed.

(** C4: for a bucket whose protein, carbs and fat are numbers [p], [c]
    and [f], the converted bucket has protein = round(p*4), carbs =
    round(c*4), fat = round(f*9), each replaced by 0 when the rounded
    value is below 1, and total = round(p*4 + c*4 + f*9); the bucket
    {name: "2024-01", protein: 50, carbs: 200, fat: 70} gives 200, 800,
    630 and 1630 and keeps its name. *)
Theorem C4_bar_values :
  (forall (day : obj) (p c f : float),
      get day "protein" = VNum p ->
      get day "carbs" = VNum c ->
      get day "fat" = VNum f ->
      let r x := if (Math_round x <? 1)%float then 0%float else Math_round x in
      get (convertDay day) "protein" = VNum (r (p * 4)%float) /\
      get (convertDay day) "carbs" = VNum (r (c * 4)%float) /\
      get (convertDay day) "fat" = VNum (r (f * 9)%float) /\
      get (convertDay day) "total" = VNum (Math_round (p * 4 + c * 4 + f * 9))) /\
  (get (convertDay exampleDay) "protein" = VNum 200 /\
   get (convertDay exampleDay) "carbs" = VNum 800 /\
   get (convertDay exampleDay) "fat" = VNum 630 /\
   get (convertDay exampleDay) "total" = VNum 1630 /\
   get (convertDay exampleDay) "name" = VStr "2024-01").
Proof.
  split.
  - intros day p c f Hp Hc Hf. cbv zeta.
    pose proof (convertDay_fields day) as H. cbv zeta in H.
    rewrite Hp, Hc, Hf in H. exact H.
  - split; [|split; [|split; [|split]]]; vm_compute; reflexivity.
Qed.

Lemma C4_bar_values_witness :
  get (convertDay exampleDay) "protein" =
    VNum (if (Math_round (50 * 4) <? 1)%float then 0%float else Math_round (50 * 4)).
Proof.
  refine (proj1 (proj1 C4_bar_values exampleDay 50%float 200%float 70%float _ _ _));
    vm_compute; reflexivity.
Defined.

(** C8: a protein, carbs or fat field that is absent, or whose [typeof]
    is not "number", gives the value 0 in the converted bucket; the
    conversion is a total function, so nothing is raised. *)
Theorem C8_non_numeric_is_zero (day : obj) (k : string) :
  k = "protein" \/ k = "carbs" \/ k = "fat" ->
  day !! k = None \/ String.eqb (typeof (get day k)) "number" = false ->
  get (convertDay day) k = VNum 0.
Proof.
  intros Hk Hv.
  assert (Hz : numberOrZero (get day k) = 0%float).
  { apply numberOrZero_not_number. destruct Hv as [Ha | Hn]; [|exact Hn].
    rewrite (get_absent _ _ Ha). reflexivity. }
  pose proof (convertDay_fields day) as (Hp & Hc & Hf & _). cbv zeta in *.
  destruct Hk as [-> | [-> | ->]].
  - rewrite Hp, Hz. vm_compute. reflexivity.
  - rewrite Hc, Hz. vm_compute. reflexivity.
  - rewrite Hf, Hz. vm_compute. reflexivity.
Qed.

Lemma C8_non_numeric_is_zero_witness :
  get (convertDay brokenDay) "protein" = VNum 0 /\
  get (convertDay brokenDay) "carbs" = VNum 0 /\
  get (convertDay brokenDay) "fat" = VNum 0.
Proof.
  split; [|split].
  - apply (C8_non_numeric_is_zero brokenDay "protein"); [left | right]; reflexivity.
  - apply (C8_non_numeric_is_zero brokenDay "carbs");
      [right; left | left]; reflexivity.
  - apply (C8_non_numeric_is_zero brokenDay "fat");
      [right; right | right]; reflexivity.
Defined.

(** A NaN field has [typeof] "number" and stays NaN in the bar. *)
Lemma convertDay_keeps_NaN :
  typeof (VNum nan) = "number" /\
  get (convertDay (<["protein" := VNum nan]> ∅)) "protein" = VNum nan.
Proof. split; vm_compute; reflexivity. Qed.

(** C5: the tick interval is 0 for the monthly view whatever the number
    of buckets; for any other view it is 0 up to 7 buckets, 1 up to 14,
    2 up to 30, 6 up to 90 and 29 beyond; 10, 50 and 95 daily buckets
    give 1, 6 and 29. *)
Theorem C5_tick_interval (viewMode : string) (n : nat) :
  xAxisInterval "monthly" n = 0 /\
  (viewMode <> "monthly" ->
   xAxisInterval viewMode n =
     if (n <=? 7)%nat then 0
     else if (n <=? 14)%nat then 1
     else if (n <=? 30)%nat then 2
     else if (n <=? 90)%nat then 6
     else 29) /\
  xAxisInterval "daily" 10 = 1 /\
  xAxisInterval "daily" 50 = 6 /\
  xAxisInterval "daily" 95 = 29.
Proof.
  split; [reflexivity|]. split; [|split; [|split]; reflexivity].
  intros Hv. unfold xAxisInterval.
  destruct (String.eqb_spec viewMode "monthly") as [E | _]; [contradiction|].
  split_comparisons; (reflexivity || lia).
Qed.

Lemma C5_tick_interval_witness :
  xAxisInterval "weekly" 20 = 2.
Proof.
  refine (proj1 (proj2 (C5_tick_interval "weekly" 20)) _).
  intros H. discriminate H.
Defined.

(** C9: while loading, the chart is the loading message whatever the
    data; when not loading and the data has no bucket (an empty sequence
    or none at all), it is the empty-state message; a bar chart is
    rendered only when not loading and there is a bucket. *)
Theorem C9_placeholders (unit viewMode : string) (data : option (list obj)) :
  MacroChart unit viewMode data true = Placeholder loadingMessage /\
  MacroChart unit viewMode (Some []) false = Placeholder emptyMessage /\
  MacroChart unit viewMode None false = Placeholder emptyMessage /\
  (forall d ds,
      MacroChart unit viewMode (Some (d :: ds)) false =
        BarChart (convertedData (d :: ds))
                 (xAxisInterval viewMode (length (d :: ds)))
                 (if String.eqb viewMode "daily" then 30 else 50)).
Proof.
  split; [reflexivity|]. split; [reflexivity|]. split; [reflexivity|].
  intros d ds. unfold MacroChart. cbn [length Nat.ltb Nat.leb Nat.eqb].
  unfold convertedData. rewrite length_map. reflexivity.
Qed.

(** ** The tooltip *)

Lemma add_or_zero (a x : float) :
  add (VNum a) (or (VNum x) (VNum 0)) = VNum (a + countedValue x).
Proof.
  unfold or, countedValue. cbn [ToBoolean].
  destruct (PrimFloat.is_zero x || PrimFloat.is_nan x); reflexivity.
Qed.

Lemma fold_left_through_map {A B C : Type} (f : C -> B -> C) (g : A -> B)
    (l : list A) (acc : C) :
  fold_left f (map g l) acc = fold_left (fun a x => f a (g x)) l acc.
Proof.
  revert acc. induction l as [|x l IH]; intros acc; cbn; [reflexivity|apply IH].
Qed.

(** The tooltip of any payload shows the entries' values as they are
    and totals those same values. *)
Lemma CustomTooltip_total (active : bool) (payload : list tooltipEntry)
    (unit : string) (view : tooltipView) :
  CustomTooltip active (Some payload) unit = Some view ->
  map row_value (tip_rows view) = map entry_value payload /\
  tip_total view =
    fold_left (fun sum v => add sum (or v (VNum 0)))
              (map row_value (tip_rows view)) (VNum 0) /\
  tip_total_unit view = "kcal".
Proof.
  unfold CustomTooltip.
  destruct (negb active || (length payload =? 0)%nat); [discriminate|].
  intros [= <-]. cbn [tip_rows tip_total tip_total_unit].
  rewrite map_map. cbn [row_value]. split; [reflexivity|]. split; [|reflexivity].
  rewrite fold_left_through_map. reflexivity.
Qed.

(** C2, as the code has it: for every hovered bucket the tooltip lists
    the rounded and floored values of the converted bucket, the total
    is the sum of these displayed values (a NaN counting as 0), and it
    carries the unit "kcal" whatever the chart's unit is. *)
Theorem C2_tooltip_total (unit : string) (day : obj) :
  let p := roundedSegment (numberOrZero (get day "protein") * 4) in
  let c := roundedSegment (numberOrZero (get day "carbs") * 4) in
  let f := roundedSegment (numberOrZero (get day "fat") * 9) in
  CustomTooltip true (Some (hoverPayload (convertDay day))) unit =
    Some {| tip_rows :=
              [ {| row_name := "Protein"; row_value := VNum p; row_unit := unit |};
                {| row_name := "Carbs"; row_value := VNum c; row_unit := unit |};
                {| row_name := "Fat"; row_value := VNum f; row_unit := unit |} ];
            tip_total :=
              VNum (0 + countedValue p + countedValue c + countedValue f);
            tip_total_unit := "kcal" |}.
Proof.
  cbv zeta.
  pose proof (convertDay_fields day) as (Hp & Hc & Hf & _). cbv zeta in *.
  unfold hoverPayload, bars. cbn [map dataKey barName].
  rewrite Hp, Hc, Hf.
  unfold CustomTooltip.
  cbn [negb orb length Nat.eqb map fold_left entry_name entry_value].
  rewrite !add_or_zero. reflexivity.
Qed.

(** C2 as stated fails: for [fractionalDay] the tooltip shows 2, 2 and 5
    and the total 9, their sum, while the values before rounding sum to
    7.5 kcal (and the gram values to 1.25). *)
Lemma C2_rounded_total_counterexample :
  exists view,
    CustomTooltip true (Some (hoverPayload (convertDay fractionalDay))) "g"
      = Some view /\
    map row_value (tip_rows view) = [VNum 2; VNum 2; VNum 5] /\
    tip_total view = VNum 9 /\
    (0.375 * 4 + 0.375 * 4 + 0.5 * 9)%float = 7.5%float /\
    tip_total view <> VNum (0.375 * 4 + 0.375 * 4 + 0.5 * 9) /\
    tip_total view <> VNum (0.375 + 0.375 + 0.5).
Proof.
  eexists. split; [vm_compute; reflexivity|]. cbn [tip_rows tip_total map row_value].
  split; [reflexivity|]. split; [reflexivity|]. split; [reflexivity|].
  split; intros H; apply (f_equal (valueIs 9)) in H; vm_compute in H; discriminate H.
Qed.

(** ** Numerals *)

Lemma digitChar_code (d : Z) :
  0 <= d < 10 -> Z.of_nat (nat_of_ascii (digitChar d)) = 48 + d.
Proof.
  intros H.
  assert (E : d = 0 \/ d = 1 \/ d = 2 \/ d = 3 \/ d = 4 \/ d = 5 \/ d = 6 \/
              d = 7 \/ d = 8 \/ d = 9) by lia.
  repeat (destruct E as [-> | E]; [reflexivity|]). subst d. reflexivity.
Qed.

Lemma digitChar_isDigit (d : Z) : 0 <= d < 10 -> isDigit (digitChar d) = true.
Proof.
  intros H. pose proof (digitChar_code d H) as E. unfold isDigit.
  apply andb_true_intro. split; apply Nat.leb_le; lia.
Qed.

Lemma digitsFuel_allDigits (fuel : nat) (n : Z) (acc : string) :
  allDigits acc = true -> allDigits (digitsFuel fuel n acc) = true.
Proof.
  revert n acc. induction fuel as [|fuel IH]; intros n acc Hacc; [exact Hacc|].
  cbn [digitsFuel].
  assert (Hd : allDigits (String (digitChar (n mod 10)) acc) = true).
  { cbn [allDigits]. rewrite digitChar_isDigit, Hacc; [reflexivity|].
    apply Z.mod_pos_bound. lia. }
  destruct (n <? 10); [exact Hd | apply IH; exact Hd].
Qed.

Lemma decimal_allDigits (n : Z) : allDigits (decimal n) = true.
Proof. apply digitsFuel_allDigits. reflexivity. Qed.

Lemma digitsFuel_read (fuel : nat) (n : Z) (acc : string) (init : Z) :
  0 <= n < 10 ^ Z.of_nat fuel -> (0 < fuel)%nat ->
  exists k : nat,
    readDigits (digitsFuel fuel n acc) init =
      readDigits acc (init * 10 ^ Z.of_nat k + n).
Proof.
  revert n acc. induction fuel as [|fuel IH]; intros n acc Hn Hf; [lia|].
  cbn [digitsFuel].
  pose proof (Z.mod_pos_bound n 10 ltac:(lia)) as Hm.
  pose proof (Z.div_mod n 10 ltac:(lia)) as Hdm.
  destruct (Z.ltb_spec n 10) as [Hlt | Hge].
  - exists 1%nat.
    unfold readDigits. cbn [list_ascii_of_string fold_left].
    rewrite digitChar_code by lia. f_equal.
    rewrite Z.mod_small by lia. change (10 ^ Z.of_nat 1) with 10. lia.
  - assert (Hfuel : (0 < fuel)%nat).
    { destruct fuel; [|lia]. change (10 ^ Z.of_nat 1) with 10 in Hn. lia. }
    assert (Hdiv : 0 <= n / 10 < 10 ^ Z.of_nat fuel).
    { rewrite Nat2Z.inj_succ, Z.pow_succ_r in Hn by lia.
      split; [apply Z.div_pos; lia|]. apply Z.div_lt_upper_bound; lia. }
    destruct (IH (n / 10) (String (digitChar (n mod 10)) acc) Hdiv Hfuel)
      as (k & E).
    exists (S k). rewrite E.
    unfold readDigits. cbn [list_ascii_of_string fold_left].
    rewrite digitChar_code by lia. f_equal.
    rewrite Nat2Z.inj_succ, Z.pow_succ_r by lia. lia.
Qed.

(** [parseInt] reads back the numeral of a natural number. *)
Lemma parseDigits_decimal (n : Z) : 0 <= n -> parseDigits (decimal n) = n.
Proof.
  intros Hn. unfold decimal.
  assert (Hb : 0 <= n < 10 ^ Z.of_nat (S (Z.to_nat (Z.log2 n)))).
  { split; [exact Hn|]. rewrite Nat2Z.inj_succ, Z2Nat.id by apply Z.log2_nonneg.
    destruct (Z.eq_dec n 0) as [-> | Hz]; [reflexivity|].
    pose proof (Z.log2_spec n ltac:(lia)) as [_ Hlt].
    apply Z.lt_le_trans with (1 := Hlt).
    apply Z.pow_le_mono_l. pose proof (Z.log2_nonneg n). lia. }
  unfold parseDigits.
  destruct (digitsFuel_read _ n "" 0 Hb ltac:(lia)) as (k & E).
  rewrite E. unfold readDigits. cbn [list_ascii_of_string fold_left]. lia.
Qed.

Lemma digitsFuel_length (k fuel : nat) (n : Z) (acc : string) :
  (1 <= k <= fuel)%nat -> 0 <= n < 10 ^ Z.of_nat k ->
  k = 1%nat \/ 10 ^ (Z.of_nat k - 1) <= n ->
  String.length (digitsFuel fuel n acc) = (k + String.length acc)%nat.
Proof.
  revert fuel n acc. induction k as [|k IH]; intros fuel n acc Hk Hn Hlow; [lia|].
  destruct fuel as [|fuel]; [lia|]. cbn [digitsFuel].
  rewrite Nat2Z.inj_succ, Z.pow_succ_r in Hn by lia.
  destruct (Z.ltb_spec n 10) as [Hlt | Hge].
  - destruct Hlow as [-> | Hlow]; [reflexivity|].
    destruct k as [|k]; [reflexivity|]. exfalso.
    replace (Z.of_nat (S (S k)) - 1) with (Z.succ (Z.of_nat k)) in Hlow by lia.
    rewrite Z.pow_succ_r in Hlow by lia.
    pose proof (Z.pow_pos_nonneg 10 (Z.of_nat k) ltac:(lia) ltac:(lia)). lia.
  - destruct k as [|k]; [change (10 ^ Z.of_nat 0) with 1 in Hn; lia|].
    rewrite (IH fuel (n / 10)); [cbn [String.length]; lia|lia| |].
    + split; [apply Z.div_pos; lia|]. apply Z.div_lt_upper_bound; lia.
    + destruct Hlow as [Hlow | Hlow]; [lia|].
      destruct k as [|k]; [left; reflexivity|right].
      replace (Z.of_nat (S (S (S k))) - 1) with (Z.succ (Z.of_nat (S (S k)) - 1)) in Hlow by lia.
      rewrite Z.pow_succ_r in Hlow by lia.
      apply Z.div_le_lower_bound; lia.
Qed.

(** A natural number with [k] digits has a numeral of [k] characters. *)
Lemma decimal_length (k : nat) (n : Z) :
  (1 <= k)%nat -> 0 <= n < 10 ^ Z.of_nat k ->
  k = 1%nat \/ 10 ^ (Z.of_nat k - 1) <= n ->
  String.length (decimal n) = k.
Proof.
  intros Hk Hn Hlow. unfold decimal.
  rewrite (digitsFuel_length k); [cbn; lia| |exact Hn|exact Hlow].
  split; [exact Hk|]. destruct Hlow as [-> | Hlow]; [lia|].
  assert (H2 : 2 ^ (Z.of_nat k - 1) <= n).
  { apply Z.le_trans with (2 := Hlow). apply Z.pow_le_mono_l. lia. }
  assert (Hpos : 0 < n).
  { apply Z.lt_le_trans with (2 := H2). apply Z.pow_pos_nonneg; lia. }
  apply Z.log2_le_pow2 in H2; [|exact Hpos]. lia.
Qed.

Lemma padStart_two_digits (n : Z) :
  0 <= n < 100 ->
  String.length (padStart (Integer_toString n) 2 "0") = 2%nat /\
  allDigits (padStart (Integer_toString n) 2 "0") = true /\
  parseDigits (padStart (Integer_toString n) 2 "0") = n.
Proof.
  intros Hn. unfold Integer_toString. destruct (Z.ltb_spec n 0); [lia|].
  pose proof (decimal_allDigits n) as Hd.
  pose proof (parseDigits_decimal n ltac:(lia)) as Hp.
  destruct (Z.lt_ge_cases n 10) as [Hs | Hb].
  - pose proof (decimal_length 1 n ltac:(lia) ltac:(cbn; lia) ltac:(auto)) as Hl.
    unfold padStart. rewrite Hl. cbn [Nat.sub fillString].
    change ("0" +:+ decimal n) with (String "0" (decimal n)).
    cbn [String.length allDigits]. rewrite Hl, Hd. split; [reflexivity|]. split; [reflexivity|].
    unfold parseDigits in *. cbn [list_ascii_of_string fold_left]. exact Hp.
  - pose proof (decimal_length 2 n ltac:(lia) ltac:(cbn; lia) ltac:(right; cbn; lia)) as Hl.
    unfold padStart. rewrite Hl. cbn [Nat.sub fillString].
    change ("" +:+ decimal n) with (decimal n). auto.
Qed.

(** For a date in a four-digit year, [getLocalDateString] is four digits,
    a dash, two digits, a dash and two digits, which read back as the
    year, the month from 1 and the day of the month. *)
Lemma getLocalDateString_shape (d : Date) :
  1000 <= getFullYear d <= 9999 ->
  exists yyyy mm dd : string,
    getLocalDateString d = yyyy +:+ "-" +:+ mm +:+ "-" +:+ dd /\
    (String.length yyyy = 4%nat /\ allDigits yyyy = true /\
     parseDigits yyyy = getFullYear d) /\
    (String.length mm = 2%nat /\ allDigits mm = true /\
     parseDigits mm = getMonth d + 1) /\
    (String.length dd = 2%nat /\ allDigits dd = true /\
     parseDigits dd = getDate d).
Proof.
  intros Hy. unfold getLocalDateString.
  eexists _, _, _. split; [reflexivity|].
  split; [|split].
  - unfold Integer_toString. destruct (Z.ltb_spec (getFullYear d) 0); [lia|].
    split; [|split].
    + apply decimal_length; [lia|cbn; lia|right; cbn; lia].
    + apply decimal_allDigits.
    + apply parseDigits_decimal. lia.
  - apply padStart_two_digits. pose proof (MonthFromDay_range d).
    unfold getMonth. lia.
  - apply padStart_two_digits. pose proof (DateFromDay_range d).
    unfold getDate. lia.
Qed.

(** ** Custom food identifiers *)

Lemma startsWith_custom_head (s : string) :
  startsWith s "custom-" = true -> headIs "c" s = true.
Proof.
  unfold startsWith. destruct s as [|a s]; cbn [String.prefix headIs];
    intros H; [discriminate H|].
  destruct (ascii_dec "c" a) as [<- | Hne]; [reflexivity|discriminate H].
Qed.

Lemma startsWith_custom_inv (s : string) :
  startsWith s "custom-" = true <-> exists rest, s = "custom-" +:+ rest.
Proof.
  unfold startsWith. split.
  - intros H. apply String.prefix_correct in H. cbn [String.length] in H.
    do 7 (destruct s as [|? s]; [discriminate H|]).
    cbn in H. injection H as -> -> -> -> -> -> -> _.
    exists s. reflexivity.
  - intros [rest ->]. cbn. destruct rest; reflexivity.
Qed.

Lemma digit_not_c (a : ascii) : isDigit a = true -> Ascii.eqb a "c" = false.
Proof.
  intros H. destruct (Ascii.eqb_spec a "c") as [-> | _]; [discriminate H|reflexivity].
Qed.

Lemma head_digits_then (s1 s2 : string) :
  allDigits s1 = true -> headIs "c" s2 = false -> headIs "c" (s1 +:+ s2) = false.
Proof.
  destruct s1 as [|a s1]; cbn; [auto|].
  intros H _. apply andb_prop in H as [H _]. apply digit_not_c, H.
Qed.

Lemma allDigits_substring (s : string) (i n : nat) :
  allDigits s = true -> allDigits (substring i n s) = true.
Proof.
  revert i n. induction s as [|a s IH]; intros i n H.
  - destruct i, n; reflexivity.
  - cbn in H. apply andb_prop in H as [Ha Hs].
    destruct i as [|i]; cbn.
    + destruct n as [|n]; [reflexivity|]. cbn. rewrite Ha. apply IH, Hs.
    + apply IH, Hs.
Qed.

Lemma zeros_head (n : nat) : headIs "c" (zeros n) = false.
Proof. destruct n; reflexivity. Qed.

Lemma formatDecimal_head (k s n : Z) : headIs "c" (formatDecimal k s n) = false.
Proof.
  unfold formatDecimal. cbv zeta. pose proof (decimal_allDigits s) as Hd.
  split_ifs;
    try (apply head_digits_then;
         [first [exact Hd | apply allDigits_substring, Hd]
         |first [apply zeros_head | reflexivity]]).
  reflexivity.
Qed.

Lemma Number_toString_head (x : float) : headIs "c" (Number_toString x) = false.
Proof.
  unfold Number_toString. destruct (Prim2SF x) as [s|s| |s m e].
  - reflexivity.
  - destruct s; reflexivity.
  - reflexivity.
  - destruct (shortest m e) as [[k d] n]. destruct s; [reflexivity|].
    apply formatDecimal_head.
Qed.

(** [String(v)] starts with "custom-" only for a string that does. *)
Lemma ToString_custom (v : value) :
  startsWith (ToString v) "custom-" = true <->
  exists rest, v = VStr ("custom-" +:+ rest).
Proof.
  split.
  - intros H. destruct v as [| |b|x|s].
    + discriminate H.
    + discriminate H.
    + destruct b; discriminate H.
    + apply startsWith_custom_head in H. cbn [ToString] in H.
      rewrite Number_toString_head in H. discriminate H.
    + cbn [ToString] in H. apply startsWith_custom_inv in H as [rest ->].
      exists rest. reflexivity.
  - intros [rest ->]. cbn [ToString]. apply startsWith_custom_inv. eauto.
Qed.

(** ** Saving a plate *)

(** C6: the payload's date is [getLocalDateString] of the selected
    date, which for a four-digit year is YYYY-MM-DD of its local year,
    month and day; the items are the tracked items in order, each with
    [food_id] (the item's [id], else its [_id]) and [quantity], and with
    [custom_macros], taken from the item, exactly when the food
    identifier is a string that starts with "custom-"; the item with id
    "custom-123" has [custom_macros] and the item with id "45" has none. *)
Theorem C6_plate_payload (st : AppState) :
  let body := req_body (savePlateRequest st) in
  plate_date body = getLocalDateString (date st) /\
  (1000 <= getFullYear (date st) <= 9999 ->
   isYearMonthDay (plate_date body) (getFullYear (date st))
                  (getMonth (date st) + 1) (getDate (date st))) /\
  plate_items body = map toPlateItem (trackedItems st) /\
  (forall item : obj,
      food_id (toPlateItem item) = or (get item "id") (get item "_id") /\
      quantity (toPlateItem item) = or (get item "quantity") (VNum 1) /\
      (custom_macros (toPlateItem item) <> None <->
       exists rest, food_id (toPlateItem item) = VStr ("custom-" +:+ rest)) /\
      (forall cm, custom_macros (toPlateItem item) = Some cm ->
         cm = {| cm_calories := get item "calories";
                 cm_protein := get item "protein";
                 cm_carbs := get item "carbs";
                 cm_totalFat := get item "totalFat";
                 cm_name := get item "name" |})) /\
  (food_id (toPlateItem customItem) = VStr "custom-123" /\
   custom_macros (toPlateItem customItem) =
     Some {| cm_calories := VNum 245; cm_protein := VNum 20; cm_carbs := VNum 30;
             cm_totalFat := VNum 5; cm_name := VStr "Shake" |}) /\
  (food_id (toPlateItem menuItem) = VStr "45" /\
   custom_macros (toPlateItem menuItem) = None).
Proof.
  cbv zeta. split; [reflexivity|]. split.
  { intros Hy. cbn [savePlateRequest req_body plate_date].
    destruct (getLocalDateString_shape (date st) Hy) as (y & m & d & H).
    exists y, m, d. exact H. }
  split; [reflexivity|]. split.
  { intros item. split; [reflexivity|]. split; [reflexivity|].
    unfold toPlateItem. cbn [custom_macros food_id].
    set (foodId := or (get item "id") (get item "_id")).
    pose proof (ToString_custom foodId) as Hc.
    destruct (startsWith (ToString foodId) "custom-").
    - split.
      + split; [intros _; apply Hc; reflexivity|intros _; discriminate].
      + intros cm [= <-]. reflexivity.
    - split.
      + split; [intros H; congruence|].
        intros H. apply Hc in H. discriminate H.
      + intros cm H. discriminate H. }
  split; split; vm_compute; reflexivity.
Qed.

Lemma C6_plate_payload_witness :
  isYearMonthDay (plate_date (req_body (savePlateRequest exampleState))) 2024 1 5.
Proof.
  refine (proj1 (proj2 (C6_plate_payload exampleState)) _).
  vm_compute. split; discriminate.
Defined.

Lemma okResponses_nonneg (outcomes : list fetchOutcome) :
  0 <= okResponses outcomes.
Proof.
  induction outcomes as [|o os IH]; cbn [okResponses]; [lia|].
  destruct (isOk o); lia.
Qed.

(** C7, as the code has it: an OK response adds exactly one to the
    version counter; a response that is not OK leaves the counter as it
    is and logs "Failed to save plate"; a request that fails leaves the
    whole state as it is, logs nothing and rejects the handler's promise;
    no outcome changes the tracked items, and over any run of saves the
    counter grows by the number of OK responses. *)
Theorem C7_save_outcome (st : AppState) :
  (let r := savePlateSettle (Response true) st in
   nutritionHistoryVersion (fst r) = nutritionHistoryVersion st + 1 /\
   consoleErrors (fst r) = consoleErrors st /\ snd r = Fulfilled) /\
  (let r := savePlateSettle (Response false) st in
   nutritionHistoryVersion (fst r) = nutritionHistoryVersion st /\
   consoleErrors (fst r) = consoleErrors st ++ ["Failed to save plate"] /\
   snd r = Fulfilled) /\
  savePlateSettle NetworkFailure st = (st, Rejected) /\
  (forall outcome,
      trackedItems (fst (savePlateSettle outcome st)) = trackedItems st /\
      snd (handleSavePlate st outcome) = savePlateSettle outcome st) /\
  (forall outcomes,
      nutritionHistoryVersion (runSaves outcomes st) =
        nutritionHistoryVersion st + okResponses outcomes /\
      nutritionHistoryVersion st <= nutritionHistoryVersion (runSaves outcomes st) /\
      trackedItems (runSaves outcomes st) = trackedItems st).
Proof.
  split; [cbn; auto|]. split; [cbn; auto|]. split; [reflexivity|]. split.
  - intros [[|]|]; split; reflexivity.
  - intros outcomes.
    enough (H : nutritionHistoryVersion (runSaves outcomes st) =
                  nutritionHistoryVersion st + okResponses outcomes /\
                trackedItems (runSaves outcomes st) = trackedItems st).
    { destruct H as [Hv Ht]. pose proof (okResponses_nonneg outcomes).
      split; [exact Hv|]. split; [lia|exact Ht]. }
    revert st.
    induction outcomes as [|o os IH]; intros st.
    + cbn [runSaves okResponses]. split; [lia|reflexivity].
    + cbn [runSaves okResponses].
      destruct (IH (fst (savePlateSettle o st))) as [Hv Ht].
      rewrite Hv, Ht.
      destruct o as [[|]|]; cbn [isOk savePlateSettle fst nutritionHistoryVersion
                                 trackedItems]; split; (lia || reflexivity).
Qed.

(** C7 as stated fails for a request that fails: the handler logs
    nothing and its promise is rejected. *)
Lemma C7_network_failure_counterexample :
  let r := snd (handleSavePlate exampleState NetworkFailure) in
  consoleErrors exampleState = [] /\
  ~ In "Failed to save plate" (consoleErrors (fst r)) /\
  snd r = Rejected.
Proof.
  cbv zeta. split; [reflexivity|]. split; [|reflexivity].
  intros H. exact H.
Qed.

(** C10: a tracked item whose quantity is falsy (absent, 0, NaN, null,
    false or the empty string) is sent with quantity 1, and no item of a
    plate payload has a quantity that is the number zero. *)
Theorem C10_quantity_defaults (st : AppState) (item : obj) :
  In item (trackedItems st) ->
  In (toPlateItem item) (plate_items (req_body (savePlateRequest st))) /\
  (ToBoolean (get item "quantity") = false ->
   quantity (toPlateItem item) = VNum 1) /\
  (forall p x,
      In p (plate_items (req_body (savePlateRequest st))) ->
      quantity p = VNum x -> PrimFloat.is_zero x = false).
Proof.
  intros Hin. split; [apply in_map, Hin|]. split.
  - intros Hf. unfold toPlateItem, or. cbn [quantity]. rewrite Hf. reflexivity.
  - intros p x Hp Hq. cbn [savePlateRequest req_body plate_items] in Hp.
    apply in_map_iff in Hp as (it & <- & _).
    unfold toPlateItem, or in Hq. cbn [quantity] in Hq.
    destruct (ToBoolean (get it "quantity")) eqn:Hb.
    + rewrite Hq in Hb. cbn [ToBoolean] in Hb.
      destruct (PrimFloat.is_zero x); [discriminate Hb|reflexivity].
    + injection Hq as <-. reflexivity.
Qed.

Lemma C10_quantity_defaults_witness :
  quantity (toPlateItem menuItem) = VNum 1.
Proof.
  refine (proj1 (proj2 (C10_quantity_defaults exampleState menuItem _)) _).
  - right. left. reflexivity.
  - reflexivity.
Defined.

(** ** More on the ISO weeks *)

Lemma getDay_add_week (d k : Z) : getDay (d + k * 7) = getDay d.
Proof. apply WeekDay_add_week. Qed.

(** X1: the weeks of a year follow each other without gap or overlap:
    week [w] starts [7 * (w - 1)] days after week 1, and week [w + 1]
    starts the day after week [w] ends. *)
Theorem week_numbers_tile (y w : Z) :
  week_start (getISOWeekDates y w) =
    week_start (getISOWeekDates y 1) + 7 * (w - 1) /\
  week_start (getISOWeekDates y (w + 1)) = week_end (getISOWeekDates y w) + 1.
Proof.
  assert (Hgen : forall v, week_start (getISOWeekDates y v) =
                           week_start (getISOWeekDates y 1) + 7 * (v - 1)).
  { intros v. rewrite !getISOWeekDates_start. cbv zeta.
    rewrite !newDate_january.
    replace (DayFromYear (fullYear y) + (1 + (v - 1) * 7) - 1)
      with (DayFromYear (fullYear y) + (1 + (1 - 1) * 7) - 1 + (v - 1) * 7) by lia.
    rewrite getDay_add_week.
    destruct (getDay _ <=? 4); lia. }
  split; [apply Hgen|].
  rewrite getISOWeekDates_end, (Hgen (w + 1)), (Hgen w). lia.
Qed.

(** X2: the week returned is the Monday-to-Sunday week of the first
    Thursday on or after the anchor, so that week 1 is the week that
    holds January 4, as ISO 8601 defines it. *)
Theorem week_of_first_thursday (y w : Z) :
  let anchor := newDate y 0 (1 + (w - 1) * 7) in
  let r := getISOWeekDates y w in
  (getDay (week_start r + 3) = 4 /\
   anchor <= week_start r + 3 < anchor + 7) /\
  (week_start (getISOWeekDates y 1) <= newDate y 0 4
     <= week_end (getISOWeekDates y 1)).
Proof.
  cbv zeta.
  assert (Hthu : forall v,
             getDay (week_start (getISOWeekDates y v) + 3) = 4 /\
             newDate y 0 (1 + (v - 1) * 7)
               <= week_start (getISOWeekDates y v) + 3
               < newDate y 0 (1 + (v - 1) * 7) + 7).
  { intros v. rewrite getISOWeekDates_start. cbv zeta.
    set (anchor := newDate _ _ _). unfold getDay, WeekDay.
    destruct (Z.leb_spec ((anchor + 4) mod 7) 4);
      split; Z.div_mod_to_equations; lia. }
  split; [apply Hthu|].
  destruct (Hthu 1) as [_ H1]. rewrite getISOWeekDates_end.
  rewrite !newDate_january in *. lia.
Qed.

(** ** Dates and their fields *)

Lemma MakeDay_in_year (y m d : Z) :
  0 <= m <= 11 -> 1 <= d <= daysInMonth y m ->
  DayFromYear y <= MakeDay y m d < DayFromYear (y + 1) /\
  MakeDay y m d = DayFromYear y + monthStart m (InLeapYear y) + d - 1.
Proof.
  intros Hm Hd. unfold MakeDay.
  rewrite (Z.div_small m 12), (Z.mod_small m 12), Z.add_0_r by lia.
  split; [|reflexivity]. rewrite DayFromYear_step.
  unfold InLeapYear in *. unfold daysInMonth, InLeapYear in Hd.
  assert (E : m = 0 \/ m = 1 \/ m = 2 \/ m = 3 \/ m = 4 \/ m = 5 \/ m = 6 \/
              m = 7 \/ m = 8 \/ m = 9 \/ m = 10 \/ m = 11) by lia.
  destruct (DaysInYear_cases y) as [L | L]; rewrite L in *;
    repeat (destruct E as [-> | E]; [cbn [monthStart] in *; lia|]);
    subst m; cbn [monthStart] in *; lia.
Qed.

(** The year, month and day given to [MakeDay] are read back by the
    getters, for a month from 0 to 11 and a day of that month. *)
Lemma MakeDay_getters (y m d : Z) :
  0 <= m <= 11 -> 1 <= d <= daysInMonth y m ->
  getFullYear (MakeDay y m d) = y /\
  getMonth (MakeDay y m d) = m /\
  getDate (MakeDay y m d) = d.
Proof.
  intros Hm Hd. destruct (MakeDay_in_year y m d Hm Hd) as [Hr E].
  assert (Hy : YearFromDay (MakeDay y m d) = y) by (apply YearFromDay_unique, Hr).
  assert (Hmo : MonthFromDay (MakeDay y m d) = m).
  { unfold MonthFromDay, DayWithinYear. cbv zeta. rewrite Hy, E.
    unfold daysInMonth in Hd. unfold InLeapYear in *.
    assert (C : m = 0 \/ m = 1 \/ m = 2 \/ m = 3 \/ m = 4 \/ m = 5 \/ m = 6 \/
                m = 7 \/ m = 8 \/ m = 9 \/ m = 10 \/ m = 11) by lia.
    destruct (DaysInYear_cases y) as [L | L]; rewrite L in *;
      repeat (destruct C as [-> | C];
              [cbn [monthStart] in *; split_comparisons; lia|]);
      subst m; cbn [monthStart] in *; split_comparisons; lia. }
  split; [exact Hy|]. split; [exact Hmo|].
  unfold getDate, DateFromDay, DayWithinYear. rewrite Hmo, Hy, E. lia.
Qed.

(** The day of the month never exceeds the days of the month. *)
Lemma getDate_in_month (t : Date) :
  1 <= getDate t <= daysInMonth (getFullYear t) (getMonth t).
Proof.
  pose proof (DateFromDay_range t) as Hr. split; [apply Hr|].
  unfold getDate, getFullYear, getMonth, DateFromDay, MonthFromDay, daysInMonth.
  cbv zeta. pose proof (DayWithinYear_range t) as Hw. unfold InLeapYear.
  destruct (DaysInYear_cases (YearFromDay t)) as [E | E]; rewrite E in *;
    split_comparisons; cbn [monthStart]; lia.
Qed.

Lemma MakeDay_of_getters (t : Date) :
  MakeDay (getFullYear t) (getMonth t) (getDate t) = t.
Proof.
  pose proof (setDate_getDate_offset t 0) as H.
  rewrite !Z.add_0_r in H. exact H.
Qed.

(** ** Keys of digits *)

Lemma append_cons (c : ascii) (s1 s2 : string) :
  String c s1 +:+ s2 = String c (s1 +:+ s2).
Proof. reflexivity. Qed.

Lemma append_empty (s : string) : "" +:+ s = s.
Proof. reflexivity. Qed.

Lemma fillString_length (c : ascii) (n : nat) (s : string) :
  String.length (fillString c n +:+ s) = (n + String.length s)%nat.
Proof.
  induction n as [|n IH]; cbn [fillString]; [reflexivity|].
  rewrite append_cons. cbn [String.length Nat.add]. f_equal. exact IH.
Qed.

Lemma fillString_zero_digits (n : nat) (s : string) :
  allDigits (fillString "0" n +:+ s) = allDigits s.
Proof.
  induction n as [|n IH]; cbn [fillString]; [reflexivity|].
  rewrite append_cons. cbn [allDigits]. exact IH.
Qed.

Lemma fillString_zero_read (n : nat) (s : string) :
  readDigits (fillString "0" n +:+ s) 0 = readDigits s 0.
Proof.
  induction n as [|n IH]; cbn [fillString]; [reflexivity|].
  rewrite append_cons. unfold readDigits in *.
  cbn [list_ascii_of_string fold_left]. exact IH.
Qed.

Lemma padStart_decimal (w k : nat) (n : Z) :
  0 <= n -> String.length (decimal n) = k -> (k <= w)%nat ->
  String.length (padStart (decimal n) w "0") = w /\
  allDigits (padStart (decimal n) w "0") = true /\
  parseDigits (padStart (decimal n) w "0") = n.
Proof.
  intros Hn Hk Hw. unfold padStart, parseDigits.
  rewrite fillString_length, fillString_zero_digits, fillString_zero_read, Hk.
  split; [lia|]. split; [apply decimal_allDigits|].
  apply (parseDigits_decimal n Hn).
Qed.

Lemma fourDigits_spec (n : Z) :
  0 <= n <= 9999 ->
  String.length (fourDigits n) = 4%nat /\
  allDigits (fourDigits n) = true /\
  parseDigits (fourDigits n) = n.
Proof.
  intros Hn. unfold fourDigits, Integer_toString.
  destruct (Z.ltb_spec n 0); [lia|].
  destruct (Z.lt_ge_cases n 10); [|destruct (Z.lt_ge_cases n 100);
    [|destruct (Z.lt_ge_cases n 1000)]].
  - apply (padStart_decimal 4 1); [lia| |lia].
    apply decimal_length; [lia|cbn; lia|auto].
  - apply (padStart_decimal 4 2); [lia| |lia].
    apply decimal_length; [lia|cbn; lia|right; cbn; lia].
  - apply (padStart_decimal 4 3); [lia| |lia].
    apply decimal_length; [lia|cbn; lia|right; cbn; lia].
  - apply (padStart_decimal 4 4); [lia| |lia].
    apply decimal_length; [lia|cbn; lia|right; cbn; lia].
Qed.

Lemma fourDigits_of_long_year (n : Z) :
  1000 <= n <= 9999 -> fourDigits n = Integer_toString n.
Proof.
  intros Hn. unfold fourDigits, padStart, Integer_toString.
  destruct (Z.ltb_spec n 0); [lia|].
  rewrite (decimal_length 4 n); [reflexivity|lia|cbn; lia|right; cbn; lia].
Qed.

Lemma twoDigits_spec (n : Z) :
  0 <= n <= 99 ->
  String.length (twoDigits n) = 2%nat /\
  allDigits (twoDigits n) = true /\
  parseDigits (twoDigits n) = n.
Proof. intros Hn. apply padStart_two_digits. lia. Qed.

Lemma oneDigit_spec (n : Z) :
  0 <= n <= 9 ->
  String.length (Integer_toString n) = 1%nat /\
  allDigits (Integer_toString n) = true /\
  parseDigits (Integer_toString n) = n.
Proof.
  intros Hn. unfold Integer_toString. destruct (Z.ltb_spec n 0); [lia|].
  split; [apply decimal_length; [lia|cbn; lia|auto]|].
  split; [apply decimal_allDigits|apply parseDigits_decimal; lia].
Qed.

Lemma one_char (s : string) :
  String.length s = 1%nat -> allDigits s = true ->
  exists a, s = String a "" /\ isDigit a = true.
Proof.
  destruct s as [|a [|b s]]; cbn; intros Hl Hd; try discriminate Hl.
  exists a. split; [reflexivity|]. destruct (isDigit a); [reflexivity|discriminate Hd].
Qed.

Lemma two_chars (s : string) :
  String.length s = 2%nat -> allDigits s = true ->
  exists a b, s = String a (String b "") /\ isDigit a = true /\ isDigit b = true.
Proof.
  destruct s as [|a [|b [|c s]]]; cbn; intros Hl Hd; try discriminate Hl.
  exists a, b. split; [reflexivity|].
  destruct (isDigit a), (isDigit b); try discriminate Hd. auto.
Qed.

Lemma four_chars (s : string) :
  String.length s = 4%nat -> allDigits s = true ->
  exists a b c d,
    s = String a (String b (String c (String d ""))) /\
    isDigit a = true /\ isDigit b = true /\ isDigit c = true /\ isDigit d = true.
Proof.
  destruct s as [|a [|b [|c [|d [|e s]]]]]; cbn; intros Hl Hd; try discriminate Hl.
  exists a, b, c, d. split; [reflexivity|].
  destruct (isDigit a), (isDigit b), (isDigit c), (isDigit d);
    try discriminate Hd. auto.
Qed.

Lemma digit_not_W (a : ascii) : isDigit a = true -> Ascii.eqb a "W" = false.
Proof.
  intros H. destruct (Ascii.eqb_spec a "W") as [-> | _]; [discriminate H|reflexivity].
Qed.

Lemma digit_not_dash (a : ascii) : isDigit a = true -> Ascii.eqb a "-" = false.
Proof.
  intros H. destruct (Ascii.eqb_spec a "-") as [-> | _]; [discriminate H|reflexivity].
Qed.

(** The three keys, read part by part. *)
Lemma weekLabelDates_of_parts (yyyy ww : string) :
  String.length yyyy = 4%nat -> allDigits yyyy = true ->
  (String.length ww = 1%nat \/ String.length ww = 2%nat) -> allDigits ww = true ->
  weekLabelDates (yyyy +:+ "-W" +:+ ww) =
    Some (getISOWeekDates (parseDigits yyyy) (parseDigits ww)).
Proof.
  intros Hy Dy Hw Dw.
  destruct (four_chars yyyy Hy Dy) as (a & b & c & d & -> & Ha & Hb & Hc & Hd).
  destruct Hw as [Hw | Hw].
  - destruct (one_char ww Hw Dw) as (e & -> & He).
    unfold weekLabelDates, weekLabelMatch.
    rewrite ?append_cons, ?append_empty. cbn [list_ascii_of_string].
    rewrite Ha, Hb, Hc, Hd, He. cbn [andb Ascii.eqb Bool.eqb].
    reflexivity.
  - destruct (two_chars ww Hw Dw) as (e & f & -> & He & Hf).
    unfold weekLabelDates, weekLabelMatch.
    rewrite ?append_cons, ?append_empty. cbn [list_ascii_of_string].
    rewrite Ha, Hb, Hc, Hd, He, Hf. cbn [andb Ascii.eqb Bool.eqb].
    reflexivity.
Qed.

Lemma isoDate_of_parts (yyyy mm dd : string) :
  String.length yyyy = 4%nat -> allDigits yyyy = true ->
  String.length mm = 2%nat -> allDigits mm = true ->
  String.length dd = 2%nat -> allDigits dd = true ->
  let s := yyyy +:+ "-" +:+ mm +:+ "-" +:+ dd in
  let year := parseDigits yyyy in
  let month := parseDigits mm - 1 in
  let day := parseDigits dd in
  isoDateMatch s = true /\
  parseISODate s =
    if (0 <=? month) && (month <=? 11) && (1 <=? day) &&
       (day <=? daysInMonth year month)
    then Some (MakeDay year month day) else None.
Proof.
  intros Hy Dy Hm Dm Hd Dd.
  destruct (four_chars yyyy Hy Dy) as (a & b & c & d & -> & Ha & Hb & Hc & Hd').
  destruct (two_chars mm Hm Dm) as (e & f & -> & He & Hf).
  destruct (two_chars dd Hd Dd) as (g & h & -> & Hg & Hh).
  cbv zeta. unfold isoDateMatch, parseISODate.
  rewrite ?append_cons, ?append_empty. cbn [list_ascii_of_string substring].
  rewrite Ha, Hb, Hc, Hd', He, Hf, Hg, Hh. split; reflexivity.
Qed.

Lemma monthLabel_of_parts (yyyy mm : string) :
  String.length yyyy = 4%nat -> allDigits yyyy = true ->
  String.length mm = 2%nat -> allDigits mm = true ->
  monthLabelMatch (yyyy +:+ "-" +:+ mm) = true /\
  (yyyy +:+ "-" +:+ mm) +:+ "-01" = yyyy +:+ "-" +:+ mm +:+ "-" +:+ "01".
Proof.
  intros Hy Dy Hm Dm.
  destruct (four_chars yyyy Hy Dy) as (a & b & c & d & -> & Ha & Hb & Hc & Hd).
  destruct (two_chars mm Hm Dm) as (e & f & -> & He & Hf).
  unfold monthLabelMatch. rewrite ?append_cons, ?append_empty. cbn [list_ascii_of_string].
  rewrite Ha, Hb, Hc, Hd, He, Hf. split; reflexivity.
Qed.

(** ** The labels *)

(** X3: a weekly key written from a year (four digits) and a week
    number (two digits, or one below 10) is accepted and gives the
    dates of [getISOWeekDates] for that year and week. *)
Theorem week_label_round_trip (y w : Z) :
  0 <= y <= 9999 -> 0 <= w <= 99 ->
  weekLabelDates (fourDigits y +:+ "-W" +:+ twoDigits w)
    = Some (getISOWeekDates y w) /\
  (w <= 9 ->
   weekLabelDates (fourDigits y +:+ "-W" +:+ Integer_toString w)
     = Some (getISOWeekDates y w)).
Proof.
  intros Hy Hw.
  destruct (fourDigits_spec y Hy) as (Ly & Dy & Py).
  destruct (twoDigits_spec w Hw) as (Lw & Dw & Pw).
  split.
  - rewrite weekLabelDates_of_parts by auto. rewrite Py, Pw. reflexivity.
  - intros H9. destruct (oneDigit_spec w ltac:(lia)) as (L1 & D1 & P1).
    rewrite weekLabelDates_of_parts by auto. rewrite Py, P1. reflexivity.
Qed.

Lemma week_label_round_trip_witness :
  weekLabelDates "2024-W10" = Some (getISOWeekDates 2024 10).
Proof.
  refine (proj1 (week_label_round_trip 2024 10 _ _)); lia.
Defined.

Lemma weekLabelMatch_not_month (label : string) :
  monthLabelMatch label = true -> weekLabelMatch label = false.
Proof.
  unfold monthLabelMatch, weekLabelMatch.
  destruct (list_ascii_of_string label)
    as [|c1 [|c2 [|c3 [|c4 [|c5 [|c6 [|c7 [|c8 l]]]]]]]];
    intros H; try discriminate H; try reflexivity.
  apply andb_prop in H as [H _]. apply andb_prop in H as [_ H6].
  rewrite (digit_not_W c6 H6), andb_false_r. reflexivity.
Qed.

Lemma weekLabelMatch_not_date (label : string) :
  isoDateMatch label = true -> weekLabelMatch label = false.
Proof.
  unfold isoDateMatch, weekLabelMatch.
  destruct (list_ascii_of_string label)
    as [|c1 [|c2 [|c3 [|c4 [|c5 [|c6 [|c7 [|c8 [|c9 [|c10 l]]]]]]]]]];
    intros H; try discriminate H; reflexivity.
Qed.

Lemma monthLabelMatch_not_week (label : string) :
  weekLabelMatch label = true -> monthLabelMatch label = false.
Proof.
  unfold monthLabelMatch, weekLabelMatch.
  destruct (list_ascii_of_string label)
    as [|c1 [|c2 [|c3 [|c4 [|c5 [|c6 [|c7 [|c8 l]]]]]]]];
    intros H; try discriminate H; try reflexivity.
  apply andb_prop in H as [H _]. apply andb_prop in H as [_ H6].
  apply Ascii.eqb_eq in H6. subst c6. rewrite !andb_false_r. reflexivity.
Qed.

Lemma monthLabelMatch_not_date (label : string) :
  isoDateMatch label = true -> monthLabelMatch label = false.
Proof.
  unfold isoDateMatch, monthLabelMatch.
  destruct (list_ascii_of_string label)
    as [|c1 [|c2 [|c3 [|c4 [|c5 [|c6 [|c7 [|c8 [|c9 [|c10 l]]]]]]]]]];
    intros H; try discriminate H; reflexivity.
Qed.

Lemma weekLabel_unmatched (label : string) :
  weekLabelMatch label = false -> weekLabel label = label.
Proof. unfold weekLabel, weekLabelDates. intros ->. reflexivity. Qed.

(** X4: in the weekly view a monthly or daily key, and in the monthly
    view a weekly or daily key, is shown as it is, on the axis and in
    the tooltip; and in every view but the daily one the axis tick and
    the tooltip's date line are the same text. *)
Theorem keys_of_another_view (parseISO_other : string -> option Date)
    (viewMode label : string) :
  (monthLabelMatch label = true \/ isoDateMatch label = true ->
   tickLabel parseISO_other "weekly" label = label /\
   displayLabel parseISO_other "weekly" label = label) /\
  (weekLabelMatch label = true \/ isoDateMatch label = true ->
   tickLabel parseISO_other "monthly" label = label /\
   displayLabel parseISO_other "monthly" label = label) /\
  (viewMode <> "daily" ->
   tickLabel parseISO_other viewMode label
     = displayLabel parseISO_other viewMode label).
Proof.
  split; [|split].
  - intros H. unfold tickLabel, displayLabel. cbn [String.eqb Ascii.eqb Bool.eqb].
    rewrite weekLabel_unmatched; [auto|].
    destruct H; [apply weekLabelMatch_not_month|apply weekLabelMatch_not_date]; auto.
  - intros H. unfold tickLabel, displayLabel, monthLabel.
    cbn [String.eqb Ascii.eqb Bool.eqb].
    replace (monthLabelMatch label) with false; [auto|]. symmetry.
    destruct H; [apply monthLabelMatch_not_week|apply monthLabelMatch_not_date]; auto.
  - intros Hv. unfold tickLabel, displayLabel.
    destruct (String.eqb_spec viewMode "daily"); [contradiction|reflexivity].
Qed.

Lemma keys_of_another_view_witness :
  tickLabel (fun _ => None) "weekly" "2024-01" = "2024-01" /\
  tickLabel (fun _ => None) "monthly" "2024-W10" = "2024-W10" /\
  tickLabel (fun _ => None) "weekly" "2024-W10"
    = displayLabel (fun _ => None) "weekly" "2024-W10".
Proof.
  pose proof (keys_of_another_view (fun _ => None) "weekly" "2024-01") as (H1 & _ & _).
  pose proof (keys_of_another_view (fun _ => None) "weekly" "2024-W10") as (_ & H2 & H3).
  split; [|split].
  - apply H1. left. reflexivity.
  - apply H2. left. reflexivity.
  - apply H3. discriminate.
Defined.

Lemma daysInMonth_range (y m : Z) : 28 <= daysInMonth y m <= 31.
Proof.
  unfold daysInMonth, InLeapYear. destruct (DaysInYear_cases y) as [E | E];
    rewrite E;
    repeat match goal with
           | |- context [match ?x with _ => _ end] => destruct x
           end; lia.
Qed.

(** X5: a monthly key of a year from 1 and a month from 01 to 12 is
    labelled with the month's abbreviation and the same four digits of
    the year; a key whose month is 00 or above 12 is shown as it is. *)
Theorem month_label_format (parseISO_other : string -> option Date) (y m : Z) :
  1 <= y <= 9999 -> 0 <= m <= 99 ->
  monthLabel parseISO_other (fourDigits y +:+ "-" +:+ twoDigits m) =
    if (1 <=? m) && (m <=? 12)
    then monthAbbrev (m - 1) +:+ " " +:+ fourDigits y
    else fourDigits y +:+ "-" +:+ twoDigits m.
Proof.
  intros Hy Hm.
  destruct (fourDigits_spec y ltac:(lia)) as (Ly & Dy & Py).
  destruct (twoDigits_spec m Hm) as (Lm & Dm & Pm).
  destruct (monthLabel_of_parts _ _ Ly Dy Lm Dm) as [Hmatch Happ].
  unfold monthLabel. rewrite Hmatch, Happ.
  destruct (isoDate_of_parts (fourDigits y) (twoDigits m) "01" Ly Dy Lm Dm
              eq_refl eq_refl) as [Hiso Hparse].
  cbv zeta in Hiso, Hparse. unfold parseISO. rewrite Hiso, Hparse, Py, Pm.
  change (parseDigits "01") with 1.
  pose proof (daysInMonth_range y (m - 1)) as Hdays.
  replace (1 <=? 1) with true by reflexivity.
  replace (1 <=? daysInMonth y (m - 1)) with true by (symmetry; apply Z.leb_le; lia).
  rewrite !andb_true_r.
  destruct (Z.leb_spec 1 m) as [H1 | H1], (Z.leb_spec m 12) as [H12 | H12];
    destruct (Z.leb_spec 0 (m - 1)), (Z.leb_spec (m - 1) 11);
    try lia; cbn [andb]; try reflexivity.
  unfold format_MMM_yyyy.
  destruct (MakeDay_getters y (m - 1) 1 ltac:(lia) ltac:(lia)) as (Gy & Gm & _).
  rewrite Gy, Gm. destruct (Z.ltb_spec 0 y); [reflexivity|lia].
Qed.

Lemma month_label_format_witness :
  monthLabel (fun _ => None) "2024-01" = "Jan 2024" /\
  monthLabel (fun _ => None) "2024-13" = "2024-13".
Proof.
  split.
  - refine (month_label_format (fun _ => None) 2024 1 _ _); lia.
  - refine (month_label_format (fun _ => None) 2024 13 _ _); lia.
Defined.

(** X6: on the daily axis a key YYYY-MM-DD that names a day of the
    calendar is labelled with the month's abbreviation and the day
    without leading zero; a key whose month or day does not exist (a
    month 00 or 13, a day 00, a February 30) is shown as it is. *)
Theorem daily_tick_format (parseISO_other : string -> option Date) (y m d : Z) :
  0 <= y <= 9999 -> 0 <= m <= 99 -> 0 <= d <= 99 ->
  tickLabel parseISO_other "daily"
            (fourDigits y +:+ "-" +:+ twoDigits m +:+ "-" +:+ twoDigits d) =
    if (1 <=? m) && (m <=? 12) && (1 <=? d) && (d <=? daysInMonth y (m - 1))
    then monthAbbrev (m - 1) +:+ " " +:+ Integer_toString d
    else fourDigits y +:+ "-" +:+ twoDigits m +:+ "-" +:+ twoDigits d.
Proof.
  intros Hy Hm Hd.
  destruct (fourDigits_spec y Hy) as (Ly & Dy & Py).
  destruct (twoDigits_spec m Hm) as (Lm & Dm & Pm).
  destruct (twoDigits_spec d Hd) as (Ld & Dd & Pd).
  destruct (isoDate_of_parts _ _ _ Ly Dy Lm Dm Ld Dd) as [Hiso Hparse].
  cbv zeta in Hiso, Hparse.
  unfold tickLabel. cbn [String.eqb Ascii.eqb Bool.eqb].
  unfold parseISO. rewrite Hiso, Hparse, Py, Pm, Pd.
  replace (0 <=? m - 1) with (1 <=? m)
    by (destruct (Z.leb_spec 1 m), (Z.leb_spec 0 (m - 1)); lia || reflexivity).
  replace (m - 1 <=? 11) with (m <=? 12)
    by (destruct (Z.leb_spec m 12), (Z.leb_spec (m - 1) 11); lia || reflexivity).
  destruct (Z.leb_spec 1 m), (Z.leb_spec m 12), (Z.leb_spec 1 d),
    (Z.leb_spec d (daysInMonth y (m - 1))); cbn [andb]; try reflexivity.
  unfold format_MMM_d.
  destruct (MakeDay_getters y (m - 1) d ltac:(lia) ltac:(lia)) as (_ & Gm & Gd).
  rewrite Gm, Gd. reflexivity.
Qed.

Lemma daily_tick_format_witness :
  tickLabel (fun _ => None) "daily" "2024-01-05" = "Jan 5" /\
  tickLabel (fun _ => None) "daily" "2023-02-30" = "2023-02-30".
Proof.
  split.
  - refine (daily_tick_format (fun _ => None) 2024 1 5 _ _ _); lia.
  - refine (daily_tick_format (fun _ => None) 2023 2 30 _ _ _); lia.
Defined.

Lemma parseISO_getLocalDateString (parseISO_other : string -> option Date)
    (t : Date) :
  1000 <= getFullYear t <= 9999 ->
  parseISO parseISO_other (getLocalDateString t) = Some t.
Proof.
  intros Hy.
  destruct (getLocalDateString_shape t Hy)
    as (yyyy & mm & dd & E & (Ly & Dy & Py) & (Lm & Dm & Pm) & (Ld & Dd & Pd)).
  destruct (isoDate_of_parts _ _ _ Ly Dy Lm Dm Ld Dd) as [Hiso Hparse].
  cbv zeta in Hiso, Hparse. unfold parseISO.
  rewrite E, Hiso, Hparse, Py, Pm, Pd.
  replace (getMonth t + 1 - 1) with (getMonth t) by lia.
  pose proof (MonthFromDay_range t) as Hm. unfold getMonth.
  pose proof (getDate_in_month t) as Hd. unfold getMonth in Hd.
  destruct (Z.leb_spec 0 (MonthFromDay t)), (Z.leb_spec (MonthFromDay t) 11),
    (Z.leb_spec 1 (getDate t)),
    (Z.leb_spec (getDate t) (daysInMonth (getFullYear t) (MonthFromDay t)));
    try lia.
  cbn [andb]. f_equal. apply MakeDay_of_getters.
Qed.

(** X7: the string [getLocalDateString] makes of a date in a four-digit
    year is read back by [parseISO] as the same day, so the daily axis
    labels it with that day's month and day of the month, while the
    tooltip of the daily view shows the string itself. *)
Theorem date_string_on_daily_axis (parseISO_other : string -> option Date)
    (t : Date) :
  1000 <= getFullYear t <= 9999 ->
  parseISO parseISO_other (getLocalDateString t) = Some t /\
  tickLabel parseISO_other "daily" (getLocalDateString t) =
    monthAbbrev (getMonth t) +:+ " " +:+ Integer_toString (getDate t) /\
  displayLabel parseISO_other "daily" (getLocalDateString t) =
    getLocalDateString t.
Proof.
  intros Hy. pose proof (parseISO_getLocalDateString parseISO_other t Hy) as Hp.
  split; [exact Hp|]. split; [|reflexivity].
  unfold tickLabel. cbn [String.eqb Ascii.eqb Bool.eqb]. rewrite Hp. reflexivity.
Qed.

Lemma date_string_on_daily_axis_witness :
  tickLabel (fun _ => None) "daily" (getLocalDateString (newDate 2024 0 5)) =
    monthAbbrev (getMonth (newDate 2024 0 5)) +:+ " " +:+
    Integer_toString (getDate (newDate 2024 0 5)).
Proof.
  refine (proj1 (proj2 (date_string_on_daily_axis (fun _ => None)
                          (newDate 2024 0 5) _))).
  vm_compute. split; discriminate.
Defined.

(** X8: for a year from 1000 to 9999, a month index from 0 to 11 and a
    day of that month, [getLocalDateString] of the date built from them
    is the year, the month plus one on two digits and the day on two
    digits, joined by dashes. *)
Theorem date_string_of_fields (y m d : Z) :
  1000 <= y <= 9999 -> 0 <= m <= 11 -> 1 <= d <= daysInMonth y m ->
  getLocalDateString (newDate y m d) =
    Integer_toString y +:+ "-" +:+ twoDigits (m + 1) +:+ "-" +:+ twoDigits d.
Proof.
  intros Hy Hm Hd. unfold newDate, fullYear.
  destruct (Z.leb_spec 0 y), (Z.leb_spec y 99); try lia. cbn [andb].
  destruct (MakeDay_getters y m d Hm Hd) as (Gy & Gm & Gd).
  unfold getLocalDateString. rewrite Gy, Gm, Gd. reflexivity.
Qed.

Lemma date_string_of_fields_witness :
  getLocalDateString (newDate 2024 1 29) = "2024-02-29".
Proof.
  refine (date_string_of_fields 2024 1 29 _ _ _); [lia|lia|].
  vm_compute. split; discriminate.
Defined.

(** X9: two dates in four-digit years that give the same string are
    the same day. *)
Theorem date_string_injective (t1 t2 : Date) :
  1000 <= getFullYear t1 <= 9999 -> 1000 <= getFullYear t2 <= 9999 ->
  getLocalDateString t1 = getLocalDateString t2 -> t1 = t2.
Proof.
  intros H1 H2 E.
  pose proof (parseISO_getLocalDateString (fun _ => None) t1 H1) as P1.
  pose proof (parseISO_getLocalDateString (fun _ => None) t2 H2) as P2.
  rewrite E, P2 in P1. injection P1 as ->. reflexivity.
Qed.

Lemma date_string_injective_witness :
  newDate 2024 0 31 + 1 = newDate 2024 1 1.
Proof.
  refine (date_string_injective (newDate 2024 0 31 + 1) (newDate 2024 1 1) _ _ _).
  - vm_compute. split; discriminate.
  - vm_compute. split; discriminate.
  - vm_compute. reflexivity.
Defined.

(** ** More on the bars *)

(** X10: the four values [convertDay] writes depend on the bucket's
    protein, carbs and fat alone: two buckets that agree on these three
    give the same bars and the same total, whatever else they hold, a
    total or calories of their own included. *)
Theorem bars_read_three_fields (day1 day2 : obj) (k : string) :
  get day1 "protein" = get day2 "protein" ->
  get day1 "carbs" = get day2 "carbs" ->
  get day1 "fat" = get day2 "fat" ->
  k = "protein" \/ k = "carbs" \/ k = "fat" \/ k = "total" ->
  get (convertDay day1) k = get (convertDay day2) k.
Proof.
  intros Hp Hc Hf Hk.
  pose proof (convertDay_fields day1) as (P1 & C1 & F1 & T1).
  pose proof (convertDay_fields day2) as (P2 & C2 & F2 & T2).
  cbv zeta in *. rewrite Hp, Hc, Hf in *.
  destruct Hk as [-> | [-> | [-> | ->]]]; congruence.
Qed.

Lemma bars_read_three_fields_witness :
  get (convertDay (<["total" := VNum 9999]> (<["calories" := VStr "n/a"]> exampleDay)))
      "total"
  = get (convertDay exampleDay) "total".
Proof.
  refine (bars_read_three_fields _ exampleDay "total" _ _ _ _);
    [reflexivity | reflexivity | reflexivity | auto].
Defined.

Lemma MacroChart_bar_chart (unit viewMode : string) (d : obj) (ds : list obj) :
  MacroChart unit viewMode (Some (d :: ds)) false =
    BarChart (convertedData (d :: ds))
             (xAxisInterval viewMode (length (d :: ds)))
             (if String.eqb viewMode "daily" then 30 else 50) /\
  length (convertedData (d :: ds)) = length (d :: ds).
Proof.
  unfold MacroChart. cbn [length Nat.ltb Nat.leb Nat.eqb].
  unfold convertedData. rewrite length_map. split; reflexivity.
Qed.

(** X11: when the chart is drawn it has one bucket for each bucket of
    the data, in the same order, and each keeps every field other than
    protein, carbs, fat and total, its name among them. *)
Theorem chart_keeps_buckets (unit viewMode : string) (data : list obj) :
  data <> [] ->
  exists converted interval size,
    MacroChart unit viewMode (Some data) false = BarChart converted interval size /\
    length converted = length data /\
    (forall i day,
        nth_error data i = Some day ->
        exists bucket,
          nth_error converted i = Some bucket /\
          get bucket "name" = get day "name" /\
          (forall k, k <> "protein" -> k <> "carbs" -> k <> "fat" -> k <> "total" ->
                     get bucket k = get day k)).
Proof.
  intros Hne. destruct data as [|d ds]; [contradiction|].
  destruct (MacroChart_bar_chart unit viewMode d ds) as [E L].
  eexists _, _, _. split; [exact E|]. split; [exact L|].
  intros i day Hi. exists (convertDay day).
  split; [apply map_nth_error, Hi|].
  split; [apply convertDay_other_field; discriminate|].
  intros k. apply convertDay_other_field.
Qed.

Lemma chart_keeps_buckets_witness :
  exists converted interval size,
    MacroChart "g" "monthly" (Some [exampleDay]) false
      = BarChart converted interval size /\
    length converted = 1%nat.
Proof.
  destruct (chart_keeps_buckets "g" "monthly" [exampleDay] ltac:(discriminate))
    as (c & i & s & E & L & _).
  exists c, i, s. split; [exact E|exact L].
Defined.





(** X13: the tick interval never shrinks as buckets are added; in the
    monthly view every bucket is labelled; in any other view up to 90
    buckets never show more than 13 labels. *)
Theorem tick_interval_thins_labels (viewMode : string) (n n' : nat) :
  ((n <= n')%nat -> xAxisInterval viewMode n <= xAxisInterval viewMode n') /\
  labelsDrawn n (xAxisInterval "monthly" n) = Z.of_nat n /\
  (viewMode <> "monthly" -> (n <= 90)%nat ->
   labelsDrawn n (xAxisInterval viewMode n) <= 13).
Proof.
  split; [|split].
  - intros Hle. unfold xAxisInterval.
    destruct (String.eqb viewMode "monthly"); [lia|].
    split_comparisons; lia.
  - unfold labelsDrawn. cbn [xAxisInterval String.eqb Ascii.eqb Bool.eqb].
    rewrite Z.add_0_r. apply Z.div_1_r.
  - intros Hv Hn. unfold labelsDrawn, xAxisInterval.
    destruct (String.eqb_spec viewMode "monthly"); [contradiction|].
    split_comparisons; try lia; apply Z.lt_succ_r, Z.div_lt_upper_bound; lia.
Qed.

Lemma tick_interval_thins_labels_witness :
  xAxisInterval "daily" 10 <= xAxisInterval "daily" 50 /\
  labelsDrawn 90 (xAxisInterval "daily" 90) <= 13.
Proof.
  pose proof (tick_interval_thins_labels "daily" 10 50) as (H1 & _ & _).
  pose proof (tick_interval_thins_labels "daily" 90 90) as (_ & _ & H2).
  split; [apply H1; lia|apply H2; [discriminate|lia]].
Defined.

Lemma add_to_string (s : string) (v : value) : exists t, add (VStr s) v = VStr t.
Proof. destruct v; eexists; reflexivity. Qed.

Lemma add_string (a : value) (s : string) : exists t, add a (VStr s) = VStr t.
Proof. destruct a; eexists; reflexivity. Qed.

Lemma total_stays_string (payload : list tooltipEntry) (s : string) :
  exists t,
    fold_left (fun sum entry => add sum (or (entry_value entry) (VNum 0)))
              payload (VStr s) = VStr t.
Proof.
  revert s. induction payload as [|e es IH]; intros s; cbn [fold_left].
  - exists s. reflexivity.
  - destruct (add_to_string s (or (entry_value e) (VNum 0))) as [t ->]. apply IH.
Qed.

Lemma or_of_string (s : string) (b : value) : s <> "" -> or (VStr s) b = VStr s.
Proof.
  intros Hne. unfold or. cbn [ToBoolean].
  destruct (String.eqb_spec s ""); [contradiction|reflexivity].
Qed.

Lemma total_becomes_string (payload : list tooltipEntry) (acc : value) :
  (exists e s, In e payload /\ entry_value e = VStr s /\ s <> "") ->
  exists t,
    fold_left (fun sum entry => add sum (or (entry_value entry) (VNum 0)))
              payload acc = VStr t.
Proof.
  intros (e & s & Hin & Hs & Hne). revert acc.
  induction payload as [|x xs IH]; intros acc; [destruct Hin|].
  cbn [fold_left]. destruct Hin as [-> | Hin].
  - rewrite Hs, (or_of_string s (VNum 0) Hne).
    destruct (add_string acc s) as [t ->]. apply total_stays_string.
  - apply IH, Hin.
Qed.

(** X14: when the value of some entry of the payload is a string that
    is not empty, the tooltip's total is a string and not a number:
    [+] concatenates from that entry on. *)
Theorem tooltip_total_of_string_value (payload : list tooltipEntry)
    (unit : string) (view : tooltipView) :
  CustomTooltip true (Some payload) unit = Some view ->
  (exists e s, In e payload /\ entry_value e = VStr s /\ s <> "") ->
  exists t, tip_total view = VStr t.
Proof.
  unfold CustomTooltip.
  destruct (negb true || (length payload =? 0)%nat); [discriminate|].
  intros [= <-] H. cbn [tip_total]. apply total_becomes_string, H.
Qed.

Lemma tooltip_total_of_string_value_witness :
  exists t,
    tip_total {| tip_rows := [ {| row_name := "Protein"; row_value := VStr "5";
                                  row_unit := "g" |} ];
                 tip_total := VStr "05"; tip_total_unit := "kcal" |} = VStr t.
Proof.
  refine (tooltip_total_of_string_value
            [ {| entry_name := "Protein"; entry_value := VStr "5" |} ] "g" _ _ _).
  - vm_compute. reflexivity.
  - eexists _, "5". split; [left; reflexivity|]. split; [reflexivity|discriminate].
Defined.

(** ** The tracker *)

Lemma AppState_eta (st : AppState) :
  {| trackedItems := trackedItems st;
     date := date st;
     nutritionHistoryVersion := nutritionHistoryVersion st;
     consoleErrors := consoleErrors st |} = st.
Proof. destruct st. reflexivity. Qed.

Lemma filter_all (A : Type) (f : A -> bool) (l : list A) :
  (forall x, In x l -> f x = true) -> List.filter f l = l.
Proof.
  induction l as [|x l IH]; intros H; cbn [List.filter]; [reflexivity|].
  rewrite (H x (or_introl eq_refl)). f_equal. apply IH.
  intros y Hy. apply H. right. exact Hy.
Qed.

Lemma filter_twice (A : Type) (f : A -> bool) (l : list A) :
  List.filter f (List.filter f l) = List.filter f l.
Proof.
  apply filter_all. intros x Hx. apply List.filter_In in Hx. apply Hx.
Qed.

Lemma strictEquals_string (s1 s2 : string) :
  strictEquals (VStr s1) (VStr s2) = true <-> s1 = s2.
Proof. cbn [strictEquals]. apply String.eqb_eq. Qed.

(** X15: adding an item and then removing the identifier it was given
    gives back the state as it was, when no tracked item had that
    identifier before. *)
Theorem add_then_remove (uuid : string) (item : obj) (q : value) (st : AppState) :
  (forall it, In it (trackedItems st) ->
              strictEquals (get it "uniqueId") (VStr uuid) = false) ->
  removeFromTracker (VStr uuid) (addToTracker uuid item q st) = st.
Proof.
  intros Hfresh. unfold removeFromTracker, addToTracker, setTrackedItems.
  cbn [trackedItems date nutritionHistoryVersion consoleErrors].
  rewrite List.filter_app. cbn [List.filter].
  rewrite get_insert_eq. cbn [strictEquals]. rewrite String.eqb_refl.
  cbn [negb]. rewrite app_nil_r, filter_all; [apply AppState_eta|].
  intros it Hit. rewrite (Hfresh it Hit). reflexivity.
Qed.

Lemma add_then_remove_witness :
  removeFromTracker (VStr "c3") (addToTracker "c3" menuItem VUndefined exampleState)
    = exampleState.
Proof.
  refine (add_then_remove "c3" menuItem VUndefined exampleState _).
  intros it [<- | [<- | []]]; reflexivity.
Defined.

(** X16: removing an identifier keeps, in their order, exactly the
    tracked items whose [uniqueId] differs from it, and touches nothing
    else of the state; removing it again, or removing an identifier no
    item has, changes nothing. *)
Theorem remove_keeps_the_others (itemId : value) (st : AppState) :
  (forall it,
      In it (trackedItems (removeFromTracker itemId st)) <->
      In it (trackedItems st) /\ strictEquals (get it "uniqueId") itemId = false) /\
  (date (removeFromTracker itemId st) = date st /\
   nutritionHistoryVersion (removeFromTracker itemId st)
     = nutritionHistoryVersion st) /\
  removeFromTracker itemId (removeFromTracker itemId st)
    = removeFromTracker itemId st /\
  ((forall it, In it (trackedItems st) ->
               strictEquals (get it "uniqueId") itemId = false) ->
   removeFromTracker itemId st = st).
Proof.
  split; [|split; [|split]].
  - intros it. unfold removeFromTracker, setTrackedItems. cbn [trackedItems].
    rewrite List.filter_In. split; intros [H1 H2]; (split; [exact H1|]).
    + destruct (strictEquals _ _); [discriminate H2|reflexivity].
    + rewrite H2. reflexivity.
  - split; reflexivity.
  - unfold removeFromTracker, setTrackedItems.
    cbn [trackedItems date nutritionHistoryVersion consoleErrors].
    rewrite filter_twice. reflexivity.
  - intros Hnone. unfold removeFromTracker, setTrackedItems.
    rewrite filter_all; [apply AppState_eta|].
    intros it Hit. rewrite (Hnone it Hit). reflexivity.
Qed.

Lemma remove_keeps_the_others_witness :
  removeFromTracker (VNum nan) exampleState = exampleState.
Proof.
  refine (proj2 (proj2 (proj2 (remove_keeps_the_others (VNum nan) exampleState))) _).
  intros it [<- | [<- | []]]; reflexivity.
Defined.

Lemma get_added_item (uuid : string) (item : obj) (q : value) (k : string) :
  k <> "uniqueId" -> k <> "quantity" ->
  get (<["uniqueId" := VStr uuid]> (<["quantity" := q]> item)) k = get item k.
Proof.
  intros H1 H2. rewrite !get_insert_ne by congruence. reflexivity.
Qed.

Lemma toPlateItem_added (uuid : string) (item : obj) (q : value) :
  toPlateItem (<["uniqueId" := VStr uuid]>
                 (<["quantity" := match q with VUndefined => VNum 1 | _ => q end]>
                    item)) =
    {| food_id := food_id (toPlateItem item);
       quantity := if ToBoolean q then q else VNum 1;
       custom_macros := custom_macros (toPlateItem item) |}.
Proof.
  unfold toPlateItem. cbn [food_id custom_macros].
  rewrite (get_added_item uuid item _ "id"), (get_added_item uuid item _ "_id"),
    (get_added_item uuid item _ "calories"), (get_added_item uuid item _ "protein"),
    (get_added_item uuid item _ "carbs"), (get_added_item uuid item _ "totalFat"),
    (get_added_item uuid item _ "name") by discriminate.
  rewrite get_insert_ne by discriminate. rewrite get_insert_eq.
  replace (or (match q with VUndefined => VNum 1 | _ => q end) (VNum 1))
    with (if ToBoolean q then q else VNum 1); [reflexivity|].
  destruct q; reflexivity.
Qed.

(** X17: after [addToTracker(item, q)] a save sends the items it sent
    before and then one more, with the food identifier and the custom
    macros of [item], and with the quantity [q], or 1 when [q] is left
    out or falsy. *)
Theorem added_item_is_saved (uuid : string) (item : obj) (q : value)
    (st : AppState) :
  let sent s := plate_items (req_body (savePlateRequest s)) in
  sent (addToTracker uuid item q st) =
    sent st ++
    [ {| food_id := food_id (toPlateItem item);
         quantity := if ToBoolean q then q else VNum 1;
         custom_macros := custom_macros (toPlateItem item) |} ] /\
  plate_date (req_body (savePlateRequest (addToTracker uuid item q st)))
    = plate_date (req_body (savePlateRequest st)).
Proof.
  cbv zeta. split; [|reflexivity].
  unfold savePlateRequest, addToTracker, setTrackedItems.
  cbn [req_body plate_items trackedItems]. rewrite map_app. f_equal.
  cbn [map]. f_equal. apply toPlateItem_added.
Qed.

Lemma runSaves_keeps_plate (outcomes : list fetchOutcome) (st : AppState) :
  trackedItems (runSaves outcomes st) = trackedItems st /\
  date (runSaves outcomes st) = date st.
Proof.
  revert st. induction outcomes as [|o os IH]; intros st; [split; reflexivity|].
  cbn [runSaves]. destruct (IH (fst (savePlateSettle o st))) as [Ht Hd].
  rewrite Ht, Hd. destruct o as [[|]|]; split; reflexivity.
Qed.

(** X18: a save neither clears nor alters the plate: after any run of
    saves, whatever their outcomes, the next save sends the same request. *)
Theorem save_again_sends_the_same (outcomes : list fetchOutcome) (st : AppState) :
  savePlateRequest (runSaves outcomes st) = savePlateRequest st.
Proof.
  destruct (runSaves_keeps_plate outcomes st) as [Ht Hd].
  unfold savePlateRequest. rewrite Ht, Hd. reflexivity.
Qed.

(** ** The routes *)

Lemma PrivateRoute_cases (a : auth) (children : element) :
  PrivateRoute a children =
    if auth_loading a then LoadingText
    else match auth_user a with
         | None => Navigate "/login" true
         | Some user =>
             if ToBoolean (get user "guest") then Navigate "/login" true
             else children
         end.
Proof. reflexivity. Qed.

(** X19: from every route, and so from every path, the redirects end
    after at most two steps on something that is rendered: no visitor is
    sent around in a loop. *)
Theorem redirects_settle (a : auth) (r : route) (path : string) :
  (exists e, settle 2 a r = Some e /\ isNavigate e = false) /\
  (exists e, settle 2 a (matchPath path) = Some e /\ isNavigate e = false).
Proof.
  assert (H : forall r', exists e, settle 2 a r' = Some e /\ isNavigate e = false).
  { intros r'. destruct r'; by_visitor a; eexists; split; reflexivity. }
  split; apply H.
Qed.

Lemma routeElement_private (a : auth) (r : route) (p : page) :
  routeElement a r = Show p -> isPrivatePage p = true ->
  auth_loading a = false /\
  exists user, auth_user a = Some user /\ ToBoolean (get user "guest") = false.
Proof.
  destruct r; unfold routeElement; rewrite ?PrivateRoute_cases;
    destruct a as [[u|] []]; cbn [auth_user auth_loading];
    try destruct (ToBoolean (get u "guest")) eqn:G;
    intros E Hp; try discriminate E; injection E as <-; try discriminate Hp;
    (split; [reflexivity|]; exists u; split; [reflexivity|exact G]).
Qed.

(** X20: however a visitor arrives, through any number of redirects, the
    profile, account and history pages are rendered only when the
    session is loaded and holds a user who is not a guest. *)
Theorem private_pages_are_guarded (fuel : nat) (a : auth) (r : route) (p : page) :
  settle fuel a r = Some (Show p) -> isPrivatePage p = true ->
  auth_loading a = false /\
  exists user, auth_user a = Some user /\ ToBoolean (get user "guest") = false.
Proof.
  revert r. induction fuel as [|fuel IH]; intros r H Hp; cbn [settle] in H;
    destruct (routeElement a r) as [p'| |to rep] eqn:E;
    try discriminate H.
  - injection H as ->. apply (routeElement_private a r p E Hp).
  - injection H as ->. apply (routeElement_private a r p E Hp).
  - apply (IH _ H Hp).
Qed.

Lemma private_pages_are_guarded_witness :
  auth_loading {| auth_user := Some memberUser; auth_loading := false |} = false /\
  exists user,
    auth_user {| auth_user := Some memberUser; auth_loading := false |} = Some user /\
    ToBoolean (get user "guest") = false.
Proof.
  refine (private_pages_are_guarded 2
            {| auth_user := Some memberUser; auth_loading := false |}
            ProfileRoute ProfileSettingsPage _ _); reflexivity.
Defined.

(** X21: where visitors land.  With no user, the private routes, the
    index and every unknown path end on the login page; a guest who
    asks for a private route is sent to the login route and from there
    to the dashboard; while the session loads, a private route shows the
    loading text; and the dashboard route renders the dashboard for
    anyone, signed in or not. *)
Theorem where_visitors_land (a : auth) (r : route) :
  (auth_loading a = false -> auth_user a = None ->
   isPrivateRoute r = true \/ r = IndexRoute \/ r = CatchAllRoute ->
   settle 2 a r = Some (Show LoginPage)) /\
  (forall user,
      auth_loading a = false -> auth_user a = Some user ->
      ToBoolean (get user "guest") = true -> isPrivateRoute r = true ->
      settle 2 a r = Some (Show DashboardPage)) /\
  (auth_loading a = true -> isPrivateRoute r = true ->
   settle 2 a r = Some LoadingText) /\
  settle 2 a DashboardRoute = Some (Show DashboardPage).
Proof.
  split; [|split; [|split]].
  - intros Hl Hu Hr. destruct a as [u l]. cbn in Hl, Hu. subst u l.
    destruct Hr as [Hr | [-> | ->]]; [destruct r; try discriminate Hr| |];
      reflexivity.
  - intros user Hl Hu Hg Hr. destruct a as [u l]. cbn in Hl, Hu. subst u l.
    destruct r; try discriminate Hr;
      unfold settle, routeElement; rewrite ?PrivateRoute_cases;
      cbn [auth_user auth_loading]; rewrite Hg; reflexivity.
  - intros Hl Hr. destruct a as [u l]. cbn in Hl. subst l.
    destruct r; try discriminate Hr; reflexivity.
  - reflexivity.
Qed.

Lemma where_visitors_land_witness :
  settle 2 {| auth_user := None; auth_loading := false |} (matchPath "/menu")
    = Some (Show LoginPage) /\
  settle 2 {| auth_user := Some guestUser; auth_loading := false |} HistoryRoute
    = Some (Show DashboardPage) /\
  settle 2 {| auth_user := None; auth_loading := true |} ProfileRoute
    = Some LoadingText.
Proof.
  split; [|split].
  - refine (proj1 (where_visitors_land _ CatchAllRoute) _ _ _); auto.
  - refine (proj1 (proj2 (where_visitors_land _ HistoryRoute)) guestUser _ _ _ _);
      reflexivity.
  - refine (proj1 (proj2 (proj2 (where_visitors_land _ ProfileRoute))) _ _);
      reflexivity.
Defined.
